(** * gh-models: the run command's session, parameters and stream client

    A shallow embedding of [cmd/run/run.go] (ModelParameters, Conversation,
    the prompt handlers and the loop of [NewRunCommand]) and of the
    completion client ([Client.GetChatCompletionStream],
    [Client.handleHTTPError]).

    Go values are modelled as follows.
    - [string] is a Rocq [string] (a sequence of bytes).
    - A pointer used as an optional value ([*int], [*float64], [*string]) is
      an [option].
    - A method with a pointer receiver returns the receiver's new value.
    - A struct passed BY VALUE to a function is a copy: whatever the callee
      assigns to it stays in the callee.  Such a function returns its local
      copy here only so that it can be inspected; its caller has no access
      to it and keeps its own value.
    - [error] is the inductive [error]; [nil] is [None]. *)

From Stdlib Require Import ZArith Ascii String List Bool Lia.
From stdpp Require Import base option list strings pretty.

Local Open Scope string_scope.
Local Open Scope Z_scope.

(** ** Characters that cannot be written inside a string literal *)

Definition dquote : ascii := "034"%char.
Definition newline : ascii := "010"%char.
Definition nl : string := String newline EmptyString.

(** ** The functions of Go's [strings] package that the program calls *)

Module strings.

Definition HasPrefix (s pre : string) : bool := String.prefix pre s.

Fixpoint drop_bytes (n : nat) (s : string) : string :=
  match n, s with
  | O, _ => s
  | S _, EmptyString => EmptyString
  | S n', String _ r => drop_bytes n' r
  end.

Definition TrimPrefix (s pre : string) : string :=
  if HasPrefix s pre then drop_bytes (String.length pre) s else s.

(** White space as [unicode.IsSpace] sees it on ASCII bytes:
    tab, line feed, vertical tab, form feed, carriage return, space. *)
Definition isSpace (c : ascii) : bool :=
  let n := nat_of_ascii c in
  (Nat.leb 9 n && Nat.leb n 13) || Nat.eqb n 32.

(** The white space runes above U+007F in UTF-8: U+0085 and U+00A0 take
    two bytes; U+1680, U+2000 to U+200A, U+2028, U+2029, U+202F, U+205F
    and U+3000 take three. *)
Definition isSpace2 (b0 b1 : ascii) : bool :=
  Nat.eqb (nat_of_ascii b0) 194
  && (Nat.eqb (nat_of_ascii b1) 133 || Nat.eqb (nat_of_ascii b1) 160).

Definition isSpace3 (b0 b1 b2 : ascii) : bool :=
  let n0 := nat_of_ascii b0 in
  let n1 := nat_of_ascii b1 in
  let n2 := nat_of_ascii b2 in
  (Nat.eqb n0 225 && Nat.eqb n1 154 && Nat.eqb n2 128)
  || (Nat.eqb n0 226 && Nat.eqb n1 128
      && ((Nat.leb 128 n2 && Nat.leb n2 138)
          || Nat.eqb n2 168 || Nat.eqb n2 169 || Nat.eqb n2 175))
  || (Nat.eqb n0 226 && Nat.eqb n1 129 && Nat.eqb n2 159)
  || (Nat.eqb n0 227 && Nat.eqb n1 128 && Nat.eqb n2 128).

(** The bytes left once the white space runes in front are gone. *)
Fixpoint trim_space_left (l : list ascii) : list ascii :=
  match l with
  | [] => []
  | b0 :: r0 =>
      if isSpace b0 then trim_space_left r0
      else
        match r0 with
        | [] => l
        | b1 :: r1 =>
            if isSpace2 b0 b1 then trim_space_left r1
            else
              match r1 with
              | [] => l
              | b2 :: r2 => if isSpace3 b0 b1 b2 then trim_space_left r2 else l
              end
        end
  end.

(** The same from the end, on the bytes in reverse order. *)
Fixpoint trim_space_right (l : list ascii) : list ascii :=
  match l with
  | [] => []
  | b0 :: r0 =>
      if isSpace b0 then trim_space_right r0
      else
        match r0 with
        | [] => l
        | b1 :: r1 =>
            if isSpace2 b1 b0 then trim_space_right r1
            else
              match r1 with
              | [] => l
              | b2 :: r2 => if isSpace3 b2 b1 b0 then trim_space_right r2 else l
              end
        end
  end.

Fixpoint trim_left (p : ascii -> bool) (l : list ascii) : list ascii :=
  match l with
  | c :: r => if p c then trim_left p r else l
  | [] => []
  end.

Definition trim_both (p : ascii -> bool) (s : string) : string :=
  string_of_list_ascii
    (rev (trim_left p (rev (trim_left p (list_ascii_of_string s))))).

(** [strings.TrimSpace]: the white space runes at both ends are removed;
    a byte that is not part of one of them stops the trimming. *)
Definition TrimSpace (s : string) : string :=
  string_of_list_ascii
    (rev (trim_space_right (rev (trim_space_left (list_ascii_of_string s))))).

Definition in_cutset (cutset : string) (c : ascii) : bool :=
  existsb (Ascii.eqb c) (list_ascii_of_string cutset).

Definition Trim (s cutset : string) : string := trim_both (in_cutset cutset) s.

(** [Split s sep] for a separator of one byte, the only use in the
    program ([strings.Split(prompt, " ")]): the pieces between the
    separators, one more than there are separators. *)
Fixpoint Split (s : string) (sep : ascii) : list string :=
  match s with
  | EmptyString => [EmptyString]
  | String c r =>
      if Ascii.eqb c sep then EmptyString :: Split r sep
      else match Split r sep with
           | p :: ps => String c p :: ps
           | [] => [String c EmptyString]
           end
  end.

Fixpoint Join (elems : list string) (sep : string) : string :=
  match elems with
  | [] => EmptyString
  | [e] => e
  | e :: r => e +:+ sep +:+ Join r sep
  end.

(** [strings.Contains]. *)
Fixpoint Contains (s substr : string) : bool :=
  String.prefix substr s
  || match s with
     | EmptyString => false
     | String _ r => Contains r substr
     end.

End strings.

(** ** Errors *)

(** The two causes a [*strconv.NumError] wraps. *)
Inductive NumErr := ErrSyntax | ErrRange.

Definition NumErr_text (e : NumErr) : string :=
  match e with
  | ErrSyntax => "invalid syntax"
  | ErrRange => "value out of range"
  end.

(** The [error] values that occur in the program. *)
Inductive error :=
| NumError (Func Num : string) (Err : NumErr)   (* *strconv.NumError *)
| errorString (s : string)                      (* errors.New(s) *)
| EOF                                           (* io.EOF *)
| transportError (s : string).                  (* any error of the reader or of net/http *)

Definition lowerhex (n : nat) : ascii :=
  if Nat.ltb n 10 then ascii_of_nat (48 + n) else ascii_of_nat (87 + n).

(** How [strconv.Quote] writes one byte below U+0080: the double quote
    and the backslash after a backslash, the control bytes by their
    letter or as two hexadecimal digits, any other as it is. *)
Definition quote_byte (c : ascii) : string :=
  let n := nat_of_ascii c in
  let esc (x : ascii) := String "\"%char (String x EmptyString) in
  if Ascii.eqb c dquote || Ascii.eqb c "\"%char then esc c
  else if Nat.eqb n 7 then esc "a"%char
  else if Nat.eqb n 8 then esc "b"%char
  else if Nat.eqb n 12 then esc "f"%char
  else if Nat.eqb n 10 then esc "n"%char
  else if Nat.eqb n 13 then esc "r"%char
  else if Nat.eqb n 9 then esc "t"%char
  else if Nat.eqb n 11 then esc "v"%char
  else if Nat.ltb n 32 || Nat.eqb n 127
  then String "\"%char
         (String "x"%char
            (String (lowerhex (Nat.div n 16)) (String (lowerhex (Nat.modulo n 16)) EmptyString)))
  else String c EmptyString.

(** [strconv.Quote] on text whose bytes from U+0080 on encode printable
    runes, which it copies. *)
Fixpoint quote_body (s : string) : string :=
  match s with
  | EmptyString => EmptyString
  | String c r => quote_byte c +:+ quote_body r
  end.

Definition Quote (s : string) : string :=
  String dquote (quote_body s) +:+ String dquote EmptyString.

(** The [Error()] method. *)
Definition Error (e : error) : string :=
  match e with
  | NumError f n c => "strconv." +:+ f +:+ ": parsing " +:+ Quote n +:+ ": " +:+ NumErr_text c
  | errorString s => s
  | EOF => "EOF"
  | transportError s => s
  end.

(** ** The functions of Go's [strconv] and [fmt] packages that the program calls *)

Module strconv.

(** [int] is 64 bits wide. *)
Definition minInt : Z := - 2 ^ 63.
Definition maxInt : Z := 2 ^ 63 - 1.

Definition digit (c : ascii) : option Z :=
  let n := Z.of_nat (nat_of_ascii c) in
  if (48 <=? n) && (n <=? 57) then Some (n - 48) else None.

Definition maxUint64 : Z := 2 ^ 64 - 1.

(** The loop of [strconv.ParseUint] in base 10 on 64 bits: it reads the
    bytes from the left, and stops with a syntax error at a byte that is
    not a digit and with a range error as soon as the number read so far
    leaves 64 bits, whichever comes first. *)
Fixpoint digits (n : Z) (s : string) : Z + NumErr :=
  match s with
  | EmptyString => inl n
  | String c r =>
      match digit c with
      | None => inr ErrSyntax
      | Some d =>
          if maxUint64 / 10 + 1 <=? n then inr ErrRange
          else
            let n1 := n * 10 + d in
            if maxUint64 <? n1 then inr ErrRange else digits n1 r
      end
  end.

(** [strconv.Atoi]: an optional sign, then one or more decimal digits; a
    value outside [int] is a range error. *)
Definition Atoi (s : string) : Z + error :=
  let '(neg, body) :=
    match s with
    | String c r =>
        if Ascii.eqb c "-"%char then (true, r)
        else if Ascii.eqb c "+"%char then (false, r)
        else (false, s)
    | EmptyString => (false, s)
    end in
  match body with
  | EmptyString => inr (NumError "Atoi" s ErrSyntax)
  | _ =>
      match digits 0 body with
      | inr cause => inr (NumError "Atoi" s cause)
      | inl n =>
          let v := if neg then - n else n in
          if (minInt <=? v) && (v <=? maxInt) then inl v
          else inr (NumError "Atoi" s ErrRange)
      end
  end.

(** [strconv.Itoa]: the decimal representation. *)
Definition Itoa (n : Z) : string := pretty n.

End strconv.

(** [float64], with the two library functions the program applies to it:
    [strconv.ParseFloat(s, 64)] and [fmt.Sprintf("%f", x)].  The program
    never computes with a [float64]; it parses, stores, copies and prints
    them, so the type and the two functions are taken as an interface. *)
Class Float64 := {
  float64 : Type;
  ParseFloat : string -> float64 + error;
  Sprintf_f : float64 -> string;
}.

(** An instance for evaluating the program on concrete inputs: the
    [float64] values that are integers of magnitude at most [2^53] (each
    one is represented exactly), written as plain decimal integers.  Any
    other text (fractions, exponents, a negative zero, larger numbers) is
    outside this instance and is reported as a syntax error. *)
Definition ParseFloat_integral (s : string) : Z + error :=
  match strconv.Atoi s with
  | inl n =>
      if (Z.abs n <=? 2 ^ 53) && negb ((n =? 0) && strings.HasPrefix s "-")
      then inl n
      else inr (NumError "ParseFloat" s ErrSyntax)
  | inr _ => inr (NumError "ParseFloat" s ErrSyntax)
  end.

Definition Sprintf_f_integral (n : Z) : string := strconv.Itoa n +:+ ".000000".

Definition IntegralFloat : Float64 :=
  {| float64 := Z;
     ParseFloat := ParseFloat_integral;
     Sprintf_f := Sprintf_f_integral |}.

(** ** The types of package [azuremodels] that the run command uses

    [ChatMessageRole] is a Go string type with three constants.  A
    [ChatCompletionOptions] is the request; its optional fields are
    pointers. *)

Definition ChatMessageRole := string.
Definition ChatMessageRoleAssistant : ChatMessageRole := "assistant".
Definition ChatMessageRoleSystem : ChatMessageRole := "system".
Definition ChatMessageRoleUser : ChatMessageRole := "user".

Record ChatMessage := {
  Content : option string;
  Role : ChatMessageRole;
}.

(** The zero value, as [make] fills a fresh slice with it. *)
Definition zeroChatMessage : ChatMessage := {| Content := None; Role := "" |}.

Record chatChoiceDelta := { Delta_Content : option string }.
Record chatChoiceMessage := { Message_Content : option string }.

Record ChatChoice := {
  Delta : option chatChoiceDelta;
  Message : option chatChoiceMessage;
}.

Record ChatCompletion := { Choices : list ChatChoice }.

(** [io.Writer] with [util.WriteToOut]: the texts written, in order. *)
Definition Writer := list string.
Definition WriteToOut (out : Writer) (message : string) : Writer :=
  (out ++ [message])%list.

(** [strings.Builder]: its buffer; the zero value is the empty buffer.
    [WriteString] never fails. *)
Definition Builder := string.
Definition WriteString (b : Builder) (s : string) : Builder := b +:+ s.

Section Run.

Context {F : Float64}.

Record ChatCompletionOptions := {
  MaxTokens : option Z;
  Messages : list ChatMessage;
  Model : string;
  Stream : bool;
  Temperature : option float64;
  TopP : option float64;
}.

(** *** ModelParameters *)

Record ModelParameters := {
  maxTokens : option Z;
  temperature : option float64;
  topP : option float64;
}.

(** [ModelParameters{}] *)
Definition zeroModelParameters : ModelParameters :=
  {| maxTokens := None; temperature := None; topP := None |}.

Definition FormatParameter (mp : ModelParameters) (name : string) : string :=
  let not_set := "<not set>" in
  if String.eqb name "max-tokens" then
    match maxTokens mp with
    | Some v => strconv.Itoa v
    | None => not_set
    end
  else if String.eqb name "temperature" then
    match temperature mp with
    | Some v => Sprintf_f v
    | None => not_set
    end
  else if String.eqb name "top-p" then
    match topP mp with
    | Some v => Sprintf_f v
    | None => not_set
    end
  else not_set.

(** The receiver after the call, and the error returned. *)
Definition SetParameterByName (mp : ModelParameters) (name value : string)
  : ModelParameters * option error :=
  if String.eqb name "max-tokens" then
    match strconv.Atoi value with
    | inr err => (mp, Some err)
    | inl v =>
        ({| maxTokens := Some v; temperature := temperature mp; topP := topP mp |}, None)
    end
  else if String.eqb name "temperature" then
    match ParseFloat value with
    | inr err => (mp, Some err)
    | inl v =>
        ({| maxTokens := maxTokens mp; temperature := Some v; topP := topP mp |}, None)
    end
  else if String.eqb name "top-p" then
    match ParseFloat value with
    | inr err => (mp, Some err)
    | inl v =>
        ({| maxTokens := maxTokens mp; temperature := temperature mp; topP := Some v |}, None)
    end
  else
    (mp, Some (errorString ("unknown parameter '" +:+ name
                 +:+ "'. Supported parameters: max-tokens, temperature, top-p"))).

(** [PopulateFromFlags], given the values of the three string flags (an
    empty flag is one that was not given). *)
Definition PopulateFromFlags (mp : ModelParameters)
    (maxTokensString temperatureString topPString : string)
  : ModelParameters * option error :=
  let step1 :=
    if String.eqb maxTokensString "" then inl mp
    else match strconv.Atoi maxTokensString with
         | inr err => inr err
         | inl v => inl {| maxTokens := Some v; temperature := temperature mp; topP := topP mp |}
         end in
  match step1 with
  | inr err => (mp, Some err)
  | inl mp1 =>
      let step2 :=
        if String.eqb temperatureString "" then inl mp1
        else match ParseFloat temperatureString with
             | inr err => inr err
             | inl v => inl {| maxTokens := maxTokens mp1; temperature := Some v; topP := topP mp1 |}
             end in
      match step2 with
      | inr err => (mp1, Some err)
      | inl mp2 =>
          if String.eqb topPString "" then (mp2, None)
          else match ParseFloat topPString with
               | inr err => (mp2, Some err)
               | inl v =>
                   ({| maxTokens := maxTokens mp2; temperature := temperature mp2; topP := Some v |},
                    None)
               end
      end
  end.

(** The request after the call. *)
Definition UpdateRequest (mp : ModelParameters) (req : ChatCompletionOptions)
  : ChatCompletionOptions :=
  {| MaxTokens := maxTokens mp;
     Messages := Messages req;
     Model := Model req;
     Stream := Stream req;
     Temperature := temperature mp;
     TopP := topP mp |}.

(** *** Conversation *)

Record Conversation := {
  messages : list ChatMessage;
  systemPrompt : string;
}.

Definition AddMessage (c : Conversation) (role : ChatMessageRole) (content : string)
  : Conversation :=
  {| messages := (messages c ++ [{| Content := Some content; Role := role |}])%list;
     systemPrompt := systemPrompt c |}.

(** [for i, message := range src { dst[startIndex+i] = message }] *)
Fixpoint copy_from (dst : list ChatMessage) (startIndex : nat) (src : list ChatMessage)
  : list ChatMessage :=
  match src with
  | [] => dst
  | message :: rest => copy_from (<[startIndex := message]> dst) (S startIndex) rest
  end.

Definition GetMessages (c : Conversation) : list ChatMessage :=
  let length := length (messages c) in
  let length := if String.eqb (systemPrompt c) "" then length else S length in
  let messages0 := replicate length zeroChatMessage in
  let startIndex := O in
  let '(messages1, startIndex) :=
    if String.eqb (systemPrompt c) "" then (messages0, startIndex)
    else (<[O := {| Content := Some (systemPrompt c); Role := ChatMessageRoleSystem |}]> messages0,
          S startIndex) in
  copy_from messages1 startIndex (messages c).

Definition Reset (c : Conversation) : Conversation :=
  {| messages := []; systemPrompt := systemPrompt c |}.

(** *** The prompt handlers

    Each handler receives [conversation] and [mp] by value.  The second
    component of a handler's result is its own copy when it returns. *)

Definition handleParametersPrompt (out : Writer) (conversation : Conversation)
    (mp : ModelParameters) : Writer :=
  let out := WriteToOut out ("Current parameters:" +:+ nl) in
  let names := ["max-tokens"; "temperature"; "top-p"] in
  let out :=
    fold_left (fun out name =>
                 WriteToOut out ("  " +:+ name +:+ ": " +:+ FormatParameter mp name +:+ nl))
              names out in
  let out := WriteToOut out nl in
  let out := WriteToOut out ("System Prompt:" +:+ nl) in
  if String.eqb (systemPrompt conversation) ""
  then WriteToOut out ("  <not set>" +:+ nl)
  else WriteToOut out ("  " +:+ systemPrompt conversation +:+ nl).

Definition handleResetPrompt (out : Writer) (conversation : Conversation)
  : Writer * Conversation :=
  let conversation := Reset conversation in
  (WriteToOut out ("Reset chat history" +:+ nl), conversation).

Definition handleSetPrompt (out : Writer) (prompt : string) (mp : ModelParameters)
  : Writer * ModelParameters :=
  let parts := strings.Split prompt " "%char in
  match parts with
  | [_; name; value] =>
      match SetParameterByName mp name value with
      | (mp, Some err) => (WriteToOut out (Error err +:+ nl), mp)
      | (mp, None) => (WriteToOut out ("Set " +:+ name +:+ " to " +:+ value +:+ nl), mp)
      end
  | _ => (WriteToOut out ("Invalid /set syntax. Usage: /set <name> <value>" +:+ nl), mp)
  end.

Definition handleSystemPrompt (out : Writer) (prompt : string) (conversation : Conversation)
  : Writer * Conversation :=
  let conversation :=
    {| messages := messages conversation;
       systemPrompt :=
         strings.Trim (strings.TrimPrefix prompt "/system-prompt ") (String dquote EmptyString) |} in
  (WriteToOut out ("Updated system prompt" +:+ nl), conversation).

Definition handleHelpPrompt (out : Writer) : Writer :=
  let out := WriteToOut out ("Commands:" +:+ nl) in
  let out := WriteToOut out ("  /bye, /exit, /quit - Exit the chat" +:+ nl) in
  let out := WriteToOut out ("  /parameters - Show current model parameters" +:+ nl) in
  let out := WriteToOut out ("  /reset, /clear - Reset chat context" +:+ nl) in
  let out := WriteToOut out ("  /set <name> <value> - Set a model parameter" +:+ nl) in
  let out := WriteToOut out ("  /system-prompt <prompt> - Set the system prompt" +:+ nl) in
  WriteToOut out ("  /help - Show this help message" +:+ nl).

Definition handleUnrecognizedPrompt (out : Writer) (prompt : string) : Writer :=
  WriteToOut out ("Unknown command '" +:+ prompt +:+ "'. See /help for supported commands." +:+ nl).

(** [messageBuilder] is received by value as well.  The result is the
    handler's copy of the builder, the writer, and the error returned.
    (The pause on a terminal only takes time.) *)
Definition handleCompletionChoice (choice : ChatChoice) (messageBuilder : Builder)
    (out : Writer) : Builder * Writer * option error :=
  match Delta choice with
  | Some {| Delta_Content := Some content |} =>
      (WriteString messageBuilder content, WriteToOut out content, None)
  | _ =>
      match Message choice with
      | Some {| Message_Content := Some content |} =>
          (WriteString messageBuilder content, WriteToOut out content, None)
      | _ => (messageBuilder, out, None)
      end
  end.

(** *** The completion stream, as the run command sees it

    [resp.Reader.Read()] returns the chunks of the stream one by one and
    then an error for good: [io.EOF] when the stream ended (the body was
    exhausted or the event reader met the payload [[DONE]]), any other
    error when it broke. *)

Record EventReader := {
  chunks : list ChatCompletion;
  final : error;
}.

Record ChatCompletionResponse := { Reader : EventReader }.

(** [errors.Is(err, io.EOF)] *)
Definition is_EOF (err : error) : bool :=
  match err with EOF => true | _ => false end.

(** *** The loop of [NewRunCommand] *)

(** What the body of a [for] does next. *)
Inductive Control :=
| Continue
| Break
| Return (err : error).

(** The variables of [RunE] that the loop touches, the texts printed
    with [fmt.Printf], and the requests handed to
    [client.GetChatCompletionStream], in order. *)
Record Session := {
  Conv : Conversation;
  Params : ModelParameters;
  Out : Writer;
  Stdout : Writer;
  Requests : list ChatCompletionOptions;
}.

Variable modelName : string.
Variable client : ChatCompletionOptions -> ChatCompletionResponse + error.

(** [for _, choice := range completion.Choices] *)
Fixpoint choices_loop (choices : list ChatChoice) (messageBuilder : Builder) (out : Writer)
  : Writer * option error :=
  match choices with
  | [] => (out, None)
  | choice :: rest =>
      match handleCompletionChoice choice messageBuilder out with
      | (_, out, Some err) => (out, Some err)
      | (_, out, None) => choices_loop rest messageBuilder out
      end
  end.

(** The inner [for] that reads the stream: [None] when it left by
    [break], the error when it left by [return err]. *)
Fixpoint read_loop (rest : list ChatCompletion) (final : error) (messageBuilder : Builder)
    (out : Writer) : Writer * option error :=
  match rest with
  | [] => if is_EOF final then (out, None) else (out, Some final)
  | completion :: rest =>
      match choices_loop (Choices completion) messageBuilder out with
      | (out, Some err) => (out, Some err)
      | (out, None) => read_loop rest final messageBuilder out
      end
  end.

(** Lines 309 to 360: one exchange with the model.  The spinner and
    the deferred [sp.Stop()] and [resp.Reader.Close()] do not touch the
    state below and are left out. *)
Definition exchange (singleShot : bool) (prompt : string) (s : Session) : Session * Control :=
  let conversation := AddMessage (Conv s) ChatMessageRoleUser prompt in
  let req :=
    {| MaxTokens := None; Messages := GetMessages conversation; Model := modelName;
       Stream := false; Temperature := None; TopP := None |} in
  let req := UpdateRequest (Params s) req in
  let requests := (Requests s ++ [req])%list in
  match client req with
  | inr err =>
      ({| Conv := conversation; Params := Params s; Out := Out s; Stdout := Stdout s;
          Requests := requests |}, Return err)
  | inl resp =>
      let messageBuilder : Builder := EmptyString in
      match read_loop (chunks (Reader resp)) (final (Reader resp)) messageBuilder (Out s) with
      | (out, Some err) =>
          ({| Conv := conversation; Params := Params s; Out := out; Stdout := Stdout s;
              Requests := requests |}, Return err)
      | (out, None) =>
          let out := WriteToOut out nl in
          let messageBuilder := WriteString messageBuilder nl in
          let conversation := AddMessage conversation ChatMessageRoleAssistant messageBuilder in
          ({| Conv := conversation; Params := Params s; Out := out; Stdout := Stdout s;
              Requests := requests |},
           if singleShot then Break else Continue)
      end
  end.

Definition with_Out (s : Session) (out : Writer) : Session :=
  {| Conv := Conv s; Params := Params s; Out := out; Stdout := Stdout s;
     Requests := Requests s |}.

(** Lines 269 to 360: the body of the loop once it has a prompt. *)
Definition dispatch (singleShot : bool) (prompt : string) (s : Session) : Session * Control :=
  let prompt := strings.TrimSpace prompt in
  if String.eqb prompt "" then (s, Continue)
  else if strings.HasPrefix prompt "/" then
    if String.eqb prompt "/bye" || String.eqb prompt "/exit" || String.eqb prompt "/quit"
    then (s, Break)
    else if String.eqb prompt "/parameters"
    then (with_Out s (handleParametersPrompt (Out s) (Conv s) (Params s)), Continue)
    else if String.eqb prompt "/reset" || String.eqb prompt "/clear"
    then (with_Out s (fst (handleResetPrompt (Out s) (Conv s))), Continue)
    else if strings.HasPrefix prompt "/set "
    then (with_Out s (fst (handleSetPrompt (Out s) prompt (Params s))), Continue)
    else if strings.HasPrefix prompt "/system-prompt "
    then (with_Out s (fst (handleSystemPrompt (Out s) prompt (Conv s))), Continue)
    else if String.eqb prompt "/help"
    then (with_Out s (handleHelpPrompt (Out s)), Continue)
    else (with_Out s (handleUnrecognizedPrompt (Out s) prompt), Continue)
  else exchange singleShot prompt s.

Definition Printf (s : Session) (text : string) : Session :=
  {| Conv := Conv s; Params := Params s; Out := Out s; Stdout := (Stdout s ++ [text])%list;
     Requests := Requests s |}.

(** The loop from the moment [initialPrompt] is empty: every turn reads a
    line of standard input.  [stdin] holds the lines that the successive
    calls of [reader.ReadString] return (each turn wraps standard input
    in a reader of its own); when they are used up the call returns an
    error.  The result is the final state and the error of [RunE]. *)
Fixpoint loop (singleShot : bool) (stdin : list string) (s : Session)
  : Session * option error :=
  let s := Printf s ">>> " in
  match stdin with
  | [] => (s, Some EOF)
  | prompt :: stdin =>
      match dispatch singleShot prompt s with
      | (s, Continue) => loop singleShot stdin s
      | (s, Break) => (s, None)
      | (s, Return err) => (s, Some err)
      end
  end.

(** Lines 222 to 236. [pipe] is the content of standard input when it is
    a pipe. *)
Definition initial (args : list string) (pipe : option string) : string * bool :=
  let initialPrompt := EmptyString in
  let singleShot := false in
  let '(initialPrompt, singleShot) :=
    if Nat.ltb 1 (length args) then (strings.Join (drop 1 args) " ", true)
    else (initialPrompt, singleShot) in
  match pipe with
  | Some promptFromPipe =>
      if Nat.ltb 0 (String.length promptFromPipe)
      then (initialPrompt +:+ nl +:+ promptFromPipe, true)
      else (initialPrompt, singleShot)
  | None => (initialPrompt, singleShot)
  end.

(** The whole loop: its first turn takes [initialPrompt] when there is one. *)
Definition session (singleShot : bool) (initialPrompt : string) (stdin : list string)
    (s : Session) : Session * option error :=
  if String.eqb initialPrompt "" then loop singleShot stdin s
  else
    match dispatch singleShot initialPrompt s with
    | (s, Continue) => loop singleShot stdin s
    | (s, Break) => (s, None)
    | (s, Return err) => (s, Some err)
    end.

(** [RunE] from line 222 on, that is once the token and the model name
    are known. *)
Definition RunE (args : list string) (pipe : option string)
    (systemPromptFlag maxTokensFlag temperatureFlag topPFlag : string)
    (stdin : list string) : Session * option error :=
  let '(initialPrompt, singleShot) := initial args pipe in
  let conversation := {| messages := []; systemPrompt := systemPromptFlag |} in
  let start mp :=
    {| Conv := conversation; Params := mp; Out := []; Stdout := []; Requests := [] |} in
  match PopulateFromFlags zeroModelParameters maxTokensFlag temperatureFlag topPFlag with
  | (mp, Some err) => (start mp, Some err)
  | (mp, None) => session singleShot initialPrompt stdin (start mp)
  end.

End Run.

(** ** The completion client (package [azure_models])

    The network and the two library calls around it are taken as
    parameters: [json.Marshal], [c.client.Do], and
    [sse.NewEventReader[ChatCompletion]], which decodes a response body.
    ([http.NewRequest] cannot fail on the constant method and URL.) *)

Module azure_models.

Definition prodInferenceURL : string :=
  "https://models.inference.ai.azure.com/chat/completions".

Definition StatusOK : Z := 200.
Definition StatusBadRequest : Z := 400.
Definition StatusUnauthorized : Z := 401.

Record Request := {
  Method : string;
  URL : string;
  Authorization : string;
  ContentType : string;
  RequestBody : string;
}.

Record Response := {
  StatusCode : Z;
  Status : string;
  Body : string;
}.

Record Client := { token : string }.

(** What a call returns, and what it did: the request it sent, if any,
    and whether it closed the body of the response. *)
Record Outcome := {
  result : option ChatCompletionResponse;
  err : option error;
  sent : option Request;
  bodyClosed : bool;
}.

Section Client.

Context {F : Float64}.

Variable Marshal : ChatCompletionOptions -> string + error.
Variable Do : Request -> Response + error.
Variable NewEventReader : string -> EventReader.

Definition handleHTTPError (c : Client) (resp : Response) : error :=
  let sb : Builder := EmptyString in
  let sb :=
    if StatusCode resp =? StatusUnauthorized then WriteString sb "unauthorized"
    else if StatusCode resp =? StatusBadRequest then WriteString sb "bad request"
    else WriteString sb ("unexpected response from the server: " +:+ Status resp) in
  let body := Body resp in
  let sb :=
    if Nat.ltb 0 (String.length body)
    then WriteString (WriteString (WriteString sb nl) body) nl
    else sb in
  errorString sb.

Definition with_Stream (req : ChatCompletionOptions) (stream : bool) : ChatCompletionOptions :=
  {| MaxTokens := MaxTokens req; Messages := Messages req; Model := Model req;
     Stream := stream; Temperature := Temperature req; TopP := TopP req |}.

Definition GetChatCompletionStream (c : Client) (req : ChatCompletionOptions) : Outcome :=
  let req := with_Stream req true in
  match Marshal req with
  | inr e => {| result := None; err := Some e; sent := None; bodyClosed := false |}
  | inl bodyBytes =>
      let httpReq :=
        {| Method := "POST"; URL := prodInferenceURL;
           Authorization := "Bearer " +:+ token c;
           ContentType := "application/json";
           RequestBody := bodyBytes |} in
      match Do httpReq with
      | inr e => {| result := None; err := Some e; sent := Some httpReq; bodyClosed := false |}
      | inl resp =>
          if negb (StatusCode resp =? StatusOK)
          then {| result := None; err := Some (handleHTTPError c resp);
                  sent := Some httpReq; bodyClosed := true |}
          else {| result := Some {| Reader := NewEventReader (Body resp) |}; err := None;
                  sent := Some httpReq; bodyClosed := false |}
      end
  end.

End Client.

End azure_models.

(** ** The model catalogue and the choice of a model

    [ModelSummary] as [ListModels] builds it.  Its method [HasName], the
    predicate [ux.IsChatModel], [ux.SortModels] and the interactive
    [survey.AskOne] are in code that is not modelled; they are
    parameters. *)

Module azuremodels.

Record ModelSummary := {
  ID : string;
  Name : string;
  FriendlyName : string;
  Task : string;
  Publisher : string;
  Summary : string;
}.

(** An entry of the catalogue's answer, with the fields [ListModels] reads. *)
Record modelCatalogSummary := {
  AssetID : string;
  summary_Name : string;
  DisplayName : string;
  InferenceTasks : list string;
  summary_Publisher : string;
  summary_Summary : string;
}.

Definition prodModelsURL : string :=
  "https://api.catalog.azureml.ms/asset-gallery/v1.0/models".

Definition dq : string := String dquote EmptyString.

Fixpoint tabs (n : nat) : string :=
  match n with
  | O => EmptyString
  | S n' => String "009"%char (tabs n')
  end.

(** The body of the catalogue query, byte for byte. *)
Definition searchBody : string :=
  (EmptyString) +:+ nl +:+
  (tabs 2 +:+ "{") +:+ nl +:+
  (tabs 3 +:+ dq +:+ "filters" +:+ dq +:+ ": [") +:+ nl +:+
  (tabs 4 +:+ "{ " +:+ dq +:+ "field" +:+ dq +:+ ": " +:+ dq +:+ "freePlayground" +:+ dq +:+ ", " +:+ dq +:+ "values" +:+ dq +:+ ": [" +:+ dq +:+ "true" +:+ dq +:+ "], " +:+ dq +:+ "operator" +:+ dq +:+ ": " +:+ dq +:+ "eq" +:+ dq +:+ "},") +:+ nl +:+
  (tabs 4 +:+ "{ " +:+ dq +:+ "field" +:+ dq +:+ ": " +:+ dq +:+ "labels" +:+ dq +:+ ", " +:+ dq +:+ "values" +:+ dq +:+ ": [" +:+ dq +:+ "latest" +:+ dq +:+ "], " +:+ dq +:+ "operator" +:+ dq +:+ ": " +:+ dq +:+ "eq" +:+ dq +:+ "}") +:+ nl +:+
  (tabs 3 +:+ "],") +:+ nl +:+
  (tabs 3 +:+ dq +:+ "order" +:+ dq +:+ ": [") +:+ nl +:+
  (tabs 4 +:+ "{ " +:+ dq +:+ "field" +:+ dq +:+ ": " +:+ dq +:+ "displayName" +:+ dq +:+ ", " +:+ dq +:+ "direction" +:+ dq +:+ ": " +:+ dq +:+ "asc" +:+ dq +:+ " }") +:+ nl +:+
  (tabs 3 +:+ "]") +:+ nl +:+
  (tabs 2 +:+ "}") +:+ nl +:+
  (tabs 1).

(** What [ListModels] returns, the request it sent, and whether it
    closed the body of the response. *)
Record Listing := {
  models : list ModelSummary;
  listing_err : option error;
  listing_sent : option azure_models.Request;
  listing_bodyClosed : bool;
}.

Section Catalogue.

Variable Do : azure_models.Request -> azure_models.Response + error.
(** [json.NewDecoder(resp.Body).Decode(&searchResponse)], then
    [searchResponse.Summaries]. *)
Variable Decode : string -> list modelCatalogSummary + error.

(** The loop that converts the summaries. *)
Fixpoint convert (acc : list ModelSummary) (summaries : list modelCatalogSummary)
  : list ModelSummary :=
  match summaries with
  | [] => acc
  | summary :: rest =>
      let inferenceTask :=
        match InferenceTasks summary with
        | task :: _ => task
        | [] => EmptyString
        end in
      convert (acc ++ [{| ID := AssetID summary;
                          Name := summary_Name summary;
                          FriendlyName := DisplayName summary;
                          Task := inferenceTask;
                          Publisher := summary_Publisher summary;
                          Summary := summary_Summary summary |}])%list rest
  end.

(** The request carries no [Authorization] header. *)
Definition ListModels (c : azure_models.Client) : Listing :=
  let httpReq :=
    {| azure_models.Method := "POST"; azure_models.URL := prodModelsURL;
       azure_models.Authorization := EmptyString;
       azure_models.ContentType := "application/json";
       azure_models.RequestBody := searchBody |} in
  match Do httpReq with
  | inr e =>
      {| models := []; listing_err := Some e; listing_sent := Some httpReq;
         listing_bodyClosed := false |}
  | inl resp =>
      if negb (azure_models.StatusCode resp =? azure_models.StatusOK)
      then {| models := []; listing_err := Some (azure_models.handleHTTPError c resp);
              listing_sent := Some httpReq; listing_bodyClosed := false |}
      else
        match Decode (azure_models.Body resp) with
        | inr e =>
            {| models := []; listing_err := Some e; listing_sent := Some httpReq;
               listing_bodyClosed := false |}
        | inl summaries =>
            {| models := convert [] summaries; listing_err := None;
               listing_sent := Some httpReq; listing_bodyClosed := false |}
        end
  end.

End Catalogue.

End azuremodels.

Section ModelName.

Import azuremodels.

Variable HasName : ModelSummary -> string -> bool.
Variable IsChatModel : ModelSummary -> bool.
Variable AskOne : list string -> string + error.

Definition noMatchErrorMessage : string :=
  "The specified model name is not found. Run 'gh models list' to see available models or 'gh models run' to select interactively.".

(** The loop of [validateModelName]: the model name and [foundMatch]
    when the loop is left. *)
Fixpoint find_match (models : list ModelSummary) (modelName : string) : string * bool :=
  match models with
  | [] => (modelName, false)
  | model :: rest =>
      if HasName model modelName then (Name model, true)
      else find_match rest modelName
  end.

Definition validateModelName (modelName : string) (models : list ModelSummary)
  : string + error :=
  if String.eqb modelName "" then inr (errorString noMatchErrorMessage)
  else
    let '(modelName, foundMatch) := find_match models modelName in
    if negb foundMatch then inr (errorString noMatchErrorMessage)
    else inl modelName.

(** The loop that fills [prompt.Options]. *)
Fixpoint chat_options (options : list string) (models : list ModelSummary) : list string :=
  match models with
  | [] => options
  | model :: rest =>
      if negb (IsChatModel model) then chat_options options rest
      else chat_options (options ++ [FriendlyName model])%list rest
  end.

Definition getModelNameFromArgs (args : list string) (models : list ModelSummary)
  : string + error :=
  match args with
  | [] =>
      match AskOne (chat_options [] models) with
      | inr err => inr err
      | inl modelName => validateModelName modelName models
      end
  | modelName :: _ => validateModelName modelName models
  end.

End ModelName.

(** ** The run command from its first line

    [listed] is what [client.ListModels] returned. *)

Section Command.

Context {F : Float64}.

Variable client : ChatCompletionOptions -> ChatCompletionResponse + error.
Variable HasName : azuremodels.ModelSummary -> string -> bool.
Variable IsChatModel : azuremodels.ModelSummary -> bool.
Variable AskOne : list string -> string + error.
Variable SortModels : list azuremodels.ModelSummary -> list azuremodels.ModelSummary.



End Command.

(** ** The printer of the view command (package [view])

    The table printer is a library; it is modelled by the calls it
    receives, in order.  [markdown.Render], the method
    [ModelDetails.ContextLimits] and the result of the printer's [Render]
    are parameters. *)

Module view.

Inductive fieldOption :=
| WithTruncate_nil                 (* tableprinter.WithTruncate(nil) *)
| WithColor_lightGrayUnderline.    (* tableprinter.WithColor(lightGrayUnderline) *)

Inductive printerCall :=
| AddField (text : string) (opts : list fieldOption)
| EndRow
| Render.

Definition TablePrinter := list printerCall.

(** [ModelDetails], with the fields the printer reads. *)
Record ModelDetails := {
  RateLimitTier : string;
  Tags : list string;
  SupportedInputModalities : list string;
  SupportedOutputModalities : list string;
  SupportedLanguages : list string;
  License : string;
  LicenseDescription : string;
  Description : string;
  Notes : string;
  Evaluation : string;
}.

Record modelPrinter := {
  modelSummary : option azuremodels.ModelSummary;
  modelDetails : option ModelDetails;
  printer : TablePrinter;
  terminalWidth : Z;
}.

Section Printer.

Variable markdown_Render : string -> Z -> string + error.
Variable ContextLimits : ModelDetails -> string.
Variable Render_result : TablePrinter -> option error.

Definition with_printer (p : modelPrinter) (calls : TablePrinter) : modelPrinter :=
  {| modelSummary := modelSummary p; modelDetails := modelDetails p;
     printer := calls; terminalWidth := terminalWidth p |}.

Definition addLabel (p : modelPrinter) (label : string) : modelPrinter :=
  with_printer p
    (printer p ++ [AddField label [WithTruncate_nil; WithColor_lightGrayUnderline]])%list.

Definition printLabelledLine (p : modelPrinter) (label value : string) : modelPrinter :=
  if String.eqb value "" then p
  else
    let p := addLabel p label in
    let p := with_printer p (printer p ++ [AddField (strings.TrimSpace value) []])%list in
    with_printer p (printer p ++ [EndRow])%list.

Definition printMultipleLinesWithLabel (p : modelPrinter) (label value : string)
  : modelPrinter :=
  if String.eqb value "" then p
  else
    let p := addLabel p label in
    let displayValue :=
      match markdown_Render (strings.TrimSpace value) (terminalWidth p) with
      | inl renderedValue => renderedValue
      | inr _ => value
      end in
    let p := with_printer p (printer p ++ [AddField displayValue [WithTruncate_nil]])%list in
    with_printer p (printer p ++ [EndRow])%list.

Definition printLabelledList (p : modelPrinter) (label : string) (values : list string)
  : modelPrinter :=
  printLabelledLine p label (strings.Join values ", ").

Definition printLabelledMultiLineList (p : modelPrinter) (label : string)
    (values : list string) : modelPrinter :=
  printMultipleLinesWithLabel p label (strings.Join values ", ").

(** The printer after the call, and the error returned. *)
Definition render (p : modelPrinter) : modelPrinter * option error :=
  let p :=
    match modelSummary p with
    | Some modelSummary =>
        let p := printLabelledLine p "Display name:" (azuremodels.FriendlyName modelSummary) in
        let p := printLabelledLine p "Model name:" (azuremodels.Name modelSummary) in
        let p := printLabelledLine p "Publisher:" (azuremodels.Publisher modelSummary) in
        printLabelledLine p "Summary:" (azuremodels.Summary modelSummary)
    | None => p
    end in
  let p :=
    match modelDetails p with
    | Some modelDetails =>
        let p := printLabelledLine p "Context:" (ContextLimits modelDetails) in
        let p := printLabelledLine p "Rate limit tier:" (RateLimitTier modelDetails) in
        let p := printLabelledList p "Tags:" (Tags modelDetails) in
        let p := printLabelledList p "Supported input types:"
                   (SupportedInputModalities modelDetails) in
        let p := printLabelledList p "Supported output types:"
                   (SupportedOutputModalities modelDetails) in
        let p := printLabelledMultiLineList p "Supported languages:"
                   (SupportedLanguages modelDetails) in
        let p := printLabelledLine p "License:" (License modelDetails) in
        let p := printMultipleLinesWithLabel p "License description:"
                   (LicenseDescription modelDetails) in
        let p := printMultipleLinesWithLabel p "Description:" (Description modelDetails) in
        let p := printMultipleLinesWithLabel p "Notes:" (Notes modelDetails) in
        printMultipleLinesWithLabel p "Evaluation:" (Evaluation modelDetails)
    | None => p
    end in
  let err := Render_result (printer p) in
  (with_printer p (printer p ++ [Render])%list, err).

End Printer.

End view.

(** ** Notions the statements use *)

(** The directive as [GetMessages] puts it in front: nothing when it is
    empty, one system message otherwise. *)
Definition directive (systemPrompt : string) : list ChatMessage :=
  if String.eqb systemPrompt "" then []
  else [{| Content := Some systemPrompt; Role := ChatMessageRoleSystem |}].

(** The text a choice carries: the one of its delta when there is one,
    else the one of its message. *)
Definition content_of (choice : ChatChoice) : option string :=
  match Delta choice with
  | Some {| Delta_Content := Some content |} => Some content
  | _ =>
      match Message choice with
      | Some {| Message_Content := Some content |} => Some content
      | _ => None
      end
  end.

(** The texts carried by the choices of the chunks, in arrival order. *)
Definition fragments (stream : list ChatCompletion) : list string :=
  omap content_of (flat_map Choices stream).

(** The request that [exchange] builds for a prompt. *)
Definition request_for {F : Float64} (modelName : string) (s : Session) (prompt : string)
  : ChatCompletionOptions :=
  UpdateRequest (Params s)
    {| MaxTokens := None;
       Messages := GetMessages (AddMessage (Conv s) ChatMessageRoleUser prompt);
       Model := modelName; Stream := false; Temperature := None; TopP := None |}.


(** A flag as [PopulateFromFlags] treats it: an empty flag sets nothing,
    any other goes where [SetParameterByName] puts it. *)
Definition set_flag {F : Float64} (name flag : string) (mp : ModelParameters)
  : ModelParameters * option error :=
  if String.eqb flag "" then (mp, None) else SetParameterByName mp name flag.

(** A line that ends the session. *)
Definition is_exit (prompt : string) : bool :=
  let prompt := strings.TrimSpace prompt in
  String.eqb prompt "/bye" || String.eqb prompt "/exit" || String.eqb prompt "/quit".

(** A request as the session sends it for a model: not yet marked as a
    stream, and ending with a user turn that is neither blank nor a
    command. *)
Definition sendable {F : Float64} (modelName : string) (req : ChatCompletionOptions) : Prop :=
  Model req = modelName
  /\ Stream req = false
  /\ exists prompt : string,
       last (Messages req) = Some {| Content := Some prompt; Role := ChatMessageRoleUser |}
       /\ prompt <> ""
       /\ strings.HasPrefix prompt "/" = false.

(** Something was written after [out]. *)
Definition wrote (out out' : Writer) : Prop :=
  exists msgs : list string, msgs <> [] /\ out' = (out ++ msgs)%list.

(** The model that [ListModels] makes of an entry of the catalogue. *)
Definition to_ModelSummary (summary : azuremodels.modelCatalogSummary)
  : azuremodels.ModelSummary :=
  {| azuremodels.ID := azuremodels.AssetID summary;
     azuremodels.Name := azuremodels.summary_Name summary;
     azuremodels.FriendlyName := azuremodels.DisplayName summary;
     azuremodels.Task := hd EmptyString (azuremodels.InferenceTasks summary);
     azuremodels.Publisher := azuremodels.summary_Publisher summary;
     azuremodels.Summary := azuremodels.summary_Summary summary |}.

(** The request that [ListModels] sends: the fixed query, with no
    [Authorization] header. *)
Definition catalogue_request : azure_models.Request :=
  {| azure_models.Method := "POST"; azure_models.URL := azuremodels.prodModelsURL;
     azure_models.Authorization := EmptyString;
     azure_models.ContentType := "application/json";
     azure_models.RequestBody := azuremodels.searchBody |}.

(** The labelled values of the view, in the order [render] goes through
    them; [true] marks the ones printed as text of several lines. *)
Definition view_entries (ContextLimits : view.ModelDetails -> string) (p : view.modelPrinter)
  : list (bool * string * string) :=
  (match view.modelSummary p with
   | Some m =>
       [(false, "Display name:", azuremodels.FriendlyName m);
        (false, "Model name:", azuremodels.Name m);
        (false, "Publisher:", azuremodels.Publisher m);
        (false, "Summary:", azuremodels.Summary m)]
   | None => []
   end
   ++
   match view.modelDetails p with
   | Some d =>
       [(false, "Context:", ContextLimits d);
        (false, "Rate limit tier:", view.RateLimitTier d);
        (false, "Tags:", strings.Join (view.Tags d) ", ");
        (false, "Supported input types:", strings.Join (view.SupportedInputModalities d) ", ");
        (false, "Supported output types:", strings.Join (view.SupportedOutputModalities d) ", ");
        (true, "Supported languages:", strings.Join (view.SupportedLanguages d) ", ");
        (false, "License:", view.License d);
        (true, "License description:", view.LicenseDescription d);
        (true, "Description:", view.Description d);
        (true, "Notes:", view.Notes d);
        (true, "Evaluation:", view.Evaluation d)]
   | None => []
   end)%list.

(** The row of one labelled value: none when the value is empty, else
    the label, the value (trimmed, or rendered as markdown when that
    works), and the end of the row. *)
Definition view_row (markdown_Render : string -> Z -> string + error) (width : Z)
    (entry : bool * string * string) : list view.printerCall :=
  let '(multi, label, value) := entry in
  if String.eqb value "" then []
  else
    [view.AddField label [view.WithTruncate_nil; view.WithColor_lightGrayUnderline];
     (if multi
      then view.AddField
             (match markdown_Render (strings.TrimSpace value) width with
              | inl renderedValue => renderedValue
              | inr _ => value
              end) [view.WithTruncate_nil]
      else view.AddField (strings.TrimSpace value) []);
     view.EndRow].

(** ** Concrete inputs used to evaluate the program *)

Definition delta_chunk (content : string) : ChatCompletion :=
  {| Choices := [{| Delta := Some {| Delta_Content := Some content |}; Message := None |}] |}.

(** The stream that carries "Hel", then "lo", then ends. *)
Definition hello_stream : EventReader :=
  {| chunks := [delta_chunk "Hel"; delta_chunk "lo"]; final := EOF |}.

Definition hello_client (req : @ChatCompletionOptions IntegralFloat)
  : ChatCompletionResponse + error :=
  inl {| Reader := hello_stream |}.

(** Parameters and requests over [IntegralFloat]. *)
Definition params (m t p : option Z) : @ModelParameters IntegralFloat :=
  @Build_ModelParameters IntegralFloat m t p.

Definition request (m : option Z) (msgs : list ChatMessage) (model : string) (stream : bool)
    (t p : option Z) : @ChatCompletionOptions IntegralFloat :=
  @Build_ChatCompletionOptions IntegralFloat m msgs model stream t p.

(** A transport that writes the stream flag into the body it sends and
    answers every request with status 401. *)
Definition flag_Marshal (req : @ChatCompletionOptions IntegralFloat) : string + error :=
  inl (if Stream req then "{stream:true}" else "{stream:false}").

Definition denied : azure_models.Response :=
  {| azure_models.StatusCode := 401;
     azure_models.Status := "401 Unauthorized";
     azure_models.Body := "no access" |}.

Definition denying_Do (httpReq : azure_models.Request) : azure_models.Response + error :=
  inl denied.

Definition no_events (body : string) : EventReader := {| chunks := []; final := EOF |}.

(** A line of standard input as [reader.ReadString] returns it. *)
Definition line (text : string) : string := text +:+ nl.

(** A session on the model "m" without flags, prompt argument or pipe:
    a prompt, the three commands that change the session, a second
    prompt, and the command that ends the session. *)
Definition commands_session : @Session IntegralFloat * option error :=
  RunE "m" hello_client ["m"] None "" "" "" ""
    [line "hi"; line "/reset"; line "/system-prompt be brief"; line "/set max-tokens 5";
     line "again"; line "/bye"].

(** A client whose call fails, and one whose stream breaks after "Hel". *)
Definition refusing_client (req : @ChatCompletionOptions IntegralFloat)
  : ChatCompletionResponse + error :=
  inr (transportError "connection refused").

Definition breaking_client (req : @ChatCompletionOptions IntegralFloat)
  : ChatCompletionResponse + error :=
  inl {| Reader := {| chunks := [delta_chunk "Hel"];
                      final := transportError "unexpected end of stream" |} |}.

(** The state in which [RunE] enters its loop, without flags. *)
Definition fresh : @Session IntegralFloat :=
  {| Conv := {| messages := []; systemPrompt := "" |}; Params := params None None None;
     Out := []; Stdout := []; Requests := [] |}.

(** A catalogue of two models, and a [HasName] that compares with the
    name and with the display name. *)
Definition gpt : azuremodels.ModelSummary :=
  {| azuremodels.ID := "1"; azuremodels.Name := "gpt-4o"; azuremodels.FriendlyName := "OpenAI GPT-4o";
     azuremodels.Task := "chat-completion"; azuremodels.Publisher := "OpenAI";
     azuremodels.Summary := "" |}.

Definition embedder : azuremodels.ModelSummary :=
  {| azuremodels.ID := "2"; azuremodels.Name := "embed"; azuremodels.FriendlyName := "Embedder";
     azuremodels.Task := "embeddings"; azuremodels.Publisher := "  ";
     azuremodels.Summary := "Embeds text" |}.

Definition by_either_name (model : azuremodels.ModelSummary) (name : string) : bool :=
  String.eqb (azuremodels.Name model) name || String.eqb (azuremodels.FriendlyName model) name.

Definition is_chat (model : azuremodels.ModelSummary) : bool :=
  String.eqb (azuremodels.Task model) "chat-completion".

Definition ask_nobody (options : list string) : string + error :=
  inr (errorString "interrupt").

(** A catalogue service that answers 200 with two entries, the second
    without an inference task. *)
Definition catalogue_answer : azure_models.Response :=
  {| azure_models.StatusCode := 200; azure_models.Status := "200 OK";
     azure_models.Body := "{}" |}.

Definition catalogue_Do (httpReq : azure_models.Request) : azure_models.Response + error :=
  inl catalogue_answer.

Definition untasked : azuremodels.modelCatalogSummary :=
  {| azuremodels.AssetID := "7"; azuremodels.summary_Name := "phi";
     azuremodels.DisplayName := "Phi"; azuremodels.InferenceTasks := [];
     azuremodels.summary_Publisher := "Microsoft"; azuremodels.summary_Summary := "small" |}.

Definition tasked : azuremodels.modelCatalogSummary :=
  {| azuremodels.AssetID := "8"; azuremodels.summary_Name := "gpt-4o";
     azuremodels.DisplayName := "OpenAI GPT-4o";
     azuremodels.InferenceTasks := ["chat-completion"; "vision"];
     azuremodels.summary_Publisher := "OpenAI"; azuremodels.summary_Summary := "large" |}.

Definition catalogue_Decode (body : string) : list azuremodels.modelCatalogSummary + error :=
  inl [tasked; untasked].

(** * Properties *)

(** ** Strings *)

Lemma append_nil_r (s : string) : s +:+ "" = s.
Proof.
  induction s as [| a s IH]; [reflexivity |].
  change (String a (s +:+ "") = String a s). now rewrite IH.
Qed.

Lemma append_assoc (a b c : string) : (a +:+ b) +:+ c = a +:+ b +:+ c.
Proof.
  induction a as [| x a IH]; [reflexivity |].
  change (String x ((a +:+ b) +:+ c) = String x (a +:+ b +:+ c)). now rewrite IH.
Qed.

(** ** The parameter set *)

Section ParameterSet.

Context {F : Float64}.

Implicit Types (mp : ModelParameters) (req : ChatCompletionOptions).

Lemma eqb_neq (a b : string) : a <> b -> String.eqb a b = false.
Proof. intros H. now apply String.eqb_neq. Qed.

(** C8. For a name that is none of max-tokens, temperature and top-p,
    [FormatParameter] returns the text "<not set>", whatever the
    parameters hold: formatting is defined on every name. *)
Theorem FormatParameter_other_name mp (name : string) :
  name <> "max-tokens" -> name <> "temperature" -> name <> "top-p" ->
  FormatParameter mp name = "<not set>".
Proof.
  intros H1 H2 H3. unfold FormatParameter.
  now rewrite !eqb_neq by assumption.
Qed.

(** C6, as the code has it. [UpdateRequest] assigns all three optional
    fields of the request from the parameters: a parameter that is set
    is copied, one that is not set leaves the field unset whatever the
    request held, and the other fields of the request keep their
    values. *)
Theorem UpdateRequest_assigns_all mp req :
  MaxTokens (UpdateRequest mp req) = maxTokens mp
  /\ Temperature (UpdateRequest mp req) = temperature mp
  /\ TopP (UpdateRequest mp req) = topP mp
  /\ Messages (UpdateRequest mp req) = Messages req
  /\ Model (UpdateRequest mp req) = Model req
  /\ Stream (UpdateRequest mp req) = Stream req.
Proof. repeat split. Qed.

(** C9. No range is checked: whatever integer [strconv.Atoi] reads is
    stored as max-tokens, and whatever number [strconv.ParseFloat] reads is
    stored as temperature or as top-p; the other two fields keep their
    values and no error is returned. *)
Theorem SetParameterByName_stores_any_parsed mp (s : string) :
  (forall n : Z, strconv.Atoi s = inl n ->
     SetParameterByName mp "max-tokens" s
     = ({| maxTokens := Some n; temperature := temperature mp; topP := topP mp |}, None))
  /\ (forall x : float64, ParseFloat s = inl x ->
        SetParameterByName mp "temperature" s
        = ({| maxTokens := maxTokens mp; temperature := Some x; topP := topP mp |}, None)
        /\ SetParameterByName mp "top-p" s
           = ({| maxTokens := maxTokens mp; temperature := temperature mp; topP := Some x |}, None)).
Proof.
  split.
  - intros n Hn. unfold SetParameterByName. cbn [String.eqb]. simpl. now rewrite Hn.
  - intros x Hx. unfold SetParameterByName. simpl. now rewrite Hx.
Qed.

(** C7, as the code has it. A name that is none of the three is refused
    with an error whose text quotes the name, and a recognised name
    whose text [strconv] cannot read is refused with the error that
    [strconv] returned; in both cases the parameters are unchanged. *)
Theorem SetParameterByName_failure mp (name value : string) :
  (name <> "max-tokens" -> name <> "temperature" -> name <> "top-p" ->
   SetParameterByName mp name value
   = (mp, Some (errorString ("unknown parameter '" +:+ name
                   +:+ "'. Supported parameters: max-tokens, temperature, top-p"))))
  /\ (forall e, strconv.Atoi value = inr e ->
        SetParameterByName mp "max-tokens" value = (mp, Some e))
  /\ (forall e, ParseFloat value = inr e ->
        SetParameterByName mp "temperature" value = (mp, Some e)
        /\ SetParameterByName mp "top-p" value = (mp, Some e)).
Proof.
  repeat split.
  - intros H1 H2 H3. unfold SetParameterByName. now rewrite !eqb_neq by assumption.
  - intros e He. unfold SetParameterByName. simpl. now rewrite He.
  - unfold SetParameterByName. simpl. now rewrite H.
  - unfold SetParameterByName. simpl. now rewrite H.
Qed.

End ParameterSet.

(** *** The parameter set on concrete inputs *)

Lemma FormatParameter_other_name_witness :
  FormatParameter (params (Some 7) None (Some 2)) "top-k" = "<not set>".
Proof.
  apply (FormatParameter_other_name (F := IntegralFloat)); discriminate.
Defined.

(** C6, the claim as written fails: a request that holds a max-tokens
    value loses it when the parameter is not set. *)
Lemma UpdateRequest_unset_clears_field :
  let req := request (Some 5) [] "m" false None None in
  maxTokens (params None None None) = None
  /\ MaxTokens (UpdateRequest (params None None None) req) <> MaxTokens req.
Proof. split; [reflexivity | discriminate]. Qed.

Lemma SetParameterByName_stores_any_parsed_witness :
  SetParameterByName (params None None None) "max-tokens" "-5"
  = (params (Some (-5)) None None, None)
  /\ SetParameterByName (params None None None) "temperature" "-5"
     = (params None (Some (-5)) None, None)
  /\ SetParameterByName (params None None None) "top-p" "-5"
     = (params None None (Some (-5)), None).
Proof.
  destruct (SetParameterByName_stores_any_parsed (params None None None) "-5") as [Hint Hfloat].
  split.
  - apply (Hint (-5)). reflexivity.
  - apply (Hfloat (-5)). reflexivity.
Defined.

Lemma SetParameterByName_failure_witness :
  SetParameterByName (params None None None) "unknown" "abc"
  = (params None None None,
     Some (errorString
             "unknown parameter 'unknown'. Supported parameters: max-tokens, temperature, top-p"))
  /\ SetParameterByName (params None None None) "max-tokens" "abc"
     = (params None None None, Some (NumError "Atoi" "abc" ErrSyntax))
  /\ SetParameterByName (params None None None) "temperature" "abc"
     = (params None None None, Some (NumError "ParseFloat" "abc" ErrSyntax)).
Proof.
  destruct (SetParameterByName_failure (params None None None) "unknown" "abc") as [Hname [Hint Hfloat]].
  split; [| split].
  - apply Hname; discriminate.
  - apply Hint. reflexivity.
  - apply (Hfloat (NumError "ParseFloat" "abc" ErrSyntax)). reflexivity.
Defined.

(** C7, the claim as written fails: the error for a text that is not a
    number is the one of [strconv]; it quotes the text and does not name
    the parameter. *)
Lemma SetParameterByName_error_omits_field :
  exists e : error,
    SetParameterByName (params None None None) "max-tokens" "abc"
    = (params None None None, Some e)
    /\ Error e = "strconv.Atoi: parsing " +:+ Quote "abc" +:+ ": invalid syntax"
    /\ strings.Contains (Error e) "max-tokens" = false.
Proof.
  exists (NumError "Atoi" "abc" ErrSyntax). repeat split.
Qed.

(** ** The conversation store *)

Section ConversationStore.

(** The copying loop writes [src] over the zero values that follow the
    first [length pre] cells. *)
Lemma copy_from_fills (src pre : list ChatMessage) :
  copy_from (pre ++ replicate (length src) zeroChatMessage)%list (length pre) src
  = (pre ++ src)%list.
Proof.
  revert pre. induction src as [| m src IH]; intros pre; simpl.
  - now rewrite app_nil_r.
  - replace (<[length pre := m]> (pre ++ zeroChatMessage :: replicate (length src) zeroChatMessage)%list)
      with ((pre ++ [m]) ++ replicate (length src) zeroChatMessage)%list.
    + replace (S (length pre)) with (length (pre ++ [m])%list).
      * rewrite IH. now rewrite <- app_assoc.
      * rewrite length_app. simpl. lia.
    + rewrite insert_app_r_alt by lia.
      rewrite Nat.sub_diag. simpl. now rewrite <- app_assoc.
Qed.

Lemma GetMessages_eq (c : Conversation) :
  GetMessages c = (directive (systemPrompt c) ++ messages c)%list.
Proof.
  unfold GetMessages, directive.
  destruct (String.eqb (systemPrompt c) "").
  - apply (copy_from_fills (messages c) []).
  - simpl.
    apply (copy_from_fills (messages c)
             [{| Content := Some (systemPrompt c); Role := ChatMessageRoleSystem |}]).
Qed.

(** C5. [GetMessages] returns the stored messages unchanged and in
    order, with one system message in front exactly when the system
    prompt is not empty; it is a function of the current prompt and
    messages, so after [Reset] it returns the directive alone, and there
    are no stored messages left. *)
Theorem GetMessages_view (c : Conversation) :
  GetMessages c
  = ((if String.eqb (systemPrompt c) "" then []
      else [{| Content := Some (systemPrompt c); Role := ChatMessageRoleSystem |}])
     ++ messages c)%list
  /\ messages (Reset c) = []
  /\ GetMessages (Reset c)
     = (if String.eqb (systemPrompt c) "" then []
        else [{| Content := Some (systemPrompt c); Role := ChatMessageRoleSystem |}]).
Proof.
  split; [| split].
  - apply GetMessages_eq.
  - reflexivity.
  - rewrite GetMessages_eq. simpl. now rewrite app_nil_r.
Qed.

End ConversationStore.

(** ** The completion client *)

Section StreamClient.

Import azure_models.

Context {F : Float64}.

Variable Marshal : ChatCompletionOptions -> string + error.
Variable Do : Request -> Response + error.
Variable NewEventReader : string -> EventReader.

Local Abbreviation stream := (GetChatCompletionStream Marshal Do NewEventReader).

(** The text of the error for a response that is not 200. *)
Lemma handleHTTPError_text (c : Client) (resp : Response) :
  handleHTTPError c resp
  = errorString
      ((if StatusCode resp =? 401 then "unauthorized"
        else if StatusCode resp =? 400 then "bad request"
        else "unexpected response from the server: " +:+ Status resp)
       +:+ (if String.eqb (Body resp) "" then "" else nl +:+ Body resp +:+ nl)).
Proof.
  unfold handleHTTPError, WriteString, StatusUnauthorized, StatusBadRequest.
  f_equal.
  destruct (Body resp) as [| b body];
    destruct (StatusCode resp =? 401), (StatusCode resp =? 400);
    cbn [String.length Nat.ltb Nat.leb String.eqb];
    rewrite ?append_nil_r, ?append_assoc; reflexivity.
Qed.

(** The request that carries [bodyBytes] for a client. *)
Local Abbreviation post c bodyBytes :=
  {| Method := "POST"; URL := prodInferenceURL;
     Authorization := "Bearer " +:+ token c;
     ContentType := "application/json"; RequestBody := bodyBytes |}.

(** The caller's request with the stream flag set and nothing else
    changed. *)
Local Abbreviation streamed req :=
  {| MaxTokens := MaxTokens req; Messages := Messages req; Model := Model req;
     Stream := true; Temperature := Temperature req; TopP := TopP req |}.

(** C4. For every request, what the client encodes and sends is the
    caller's request with the stream flag set to true: when that
    encodes, the call is made with the encoding as its body.  And when
    the answer to that call has a status other than 200, the client
    returns no stream, closes the body of the response, and returns an
    error whose text tells a 401, a 400 and any other status apart and
    carries the body of the response. *)
Theorem GetChatCompletionStream_non_success (c : Client) (req : ChatCompletionOptions) :
  (forall bodyBytes : string,
     Marshal (streamed req) = inl bodyBytes ->
     sent (stream c req) = Some (post c bodyBytes))
  /\ (forall (bodyBytes : string) (resp : Response),
        Marshal (streamed req) = inl bodyBytes ->
        Do (post c bodyBytes) = inl resp ->
        StatusCode resp <> StatusOK ->
        result (stream c req) = None
        /\ bodyClosed (stream c req) = true
        /\ err (stream c req)
           = Some (errorString
                     ((if StatusCode resp =? 401 then "unauthorized"
                       else if StatusCode resp =? 400 then "bad request"
                       else "unexpected response from the server: " +:+ Status resp)
                      +:+ (if String.eqb (Body resp) "" then ""
                           else nl +:+ Body resp +:+ nl)))).
Proof.
  unfold GetChatCompletionStream, with_Stream.
  split.
  - intros bodyBytes ->.
    destruct (Do (post c bodyBytes)) as [resp | e]; [| reflexivity].
    now destruct (negb (StatusCode resp =? StatusOK)).
  - intros bodyBytes resp -> -> Hne.
    assert (negb (StatusCode resp =? StatusOK) = true) as ->.
    { apply negb_true_iff, Z.eqb_neq, Hne. }
    simpl. repeat split. now rewrite handleHTTPError_text.
Qed.

End StreamClient.

Lemma GetChatCompletionStream_non_success_witness :
  let o :=
    azure_models.GetChatCompletionStream flag_Marshal denying_Do no_events
      {| azure_models.token := "t" |} (request None [] "m" false None None) in
  option_map azure_models.RequestBody (azure_models.sent o) = Some "{stream:true}"
  /\ azure_models.result o = None
  /\ azure_models.bodyClosed o = true
  /\ azure_models.err o = Some (errorString ("unauthorized" +:+ nl +:+ "no access" +:+ nl)).
Proof.
  pose proof (GetChatCompletionStream_non_success flag_Marshal denying_Do no_events
                {| azure_models.token := "t" |} (request None [] "m" false None None))
    as [Hsent Herr].
  split.
  - exact (f_equal (option_map azure_models.RequestBody) (Hsent "{stream:true}" eq_refl)).
  - refine (Herr "{stream:true}" denied eq_refl eq_refl _). discriminate.
Defined.

(** ** The session *)

Section SessionLoop.

Context {F : Float64}.

Variable modelName : string.
Variable client : ChatCompletionOptions -> ChatCompletionResponse + error.

Lemma handleCompletionChoice_out (choice : ChatChoice) (b : Builder) (out : Writer) :
  exists b' : Builder,
    handleCompletionChoice choice b out
    = (b', (out ++ option_list (content_of choice))%list, None).
Proof.
  unfold handleCompletionChoice, content_of, WriteToOut.
  destruct (Delta choice) as [[[d |]] |]; simpl; eauto;
    destruct (Message choice) as [[[m |]] |]; simpl; rewrite ?app_nil_r; eauto.
Qed.

Lemma choices_loop_out (choices : list ChatChoice) (b : Builder) (out : Writer) :
  choices_loop choices b out = ((out ++ omap content_of choices)%list, None).
Proof.
  revert out. induction choices as [| choice rest IH]; intros out; simpl.
  - now rewrite app_nil_r.
  - destruct (handleCompletionChoice_out choice b out) as [b' ->].
    rewrite IH, <- app_assoc. do 2 f_equal.
    now destruct (content_of choice).
Qed.

Lemma fragments_cons (completion : ChatCompletion) (rest : list ChatCompletion) :
  fragments (completion :: rest)
  = (omap content_of (Choices completion) ++ fragments rest)%list.
Proof. unfold fragments. simpl. now rewrite omap_app. Qed.

(** The reading loop hands every fragment to the writer, in order, and
    never touches its own builder. *)
Lemma read_loop_out (stream : list ChatCompletion) (final : error) (b : Builder)
    (out : Writer) :
  read_loop stream final b out
  = ((out ++ fragments stream)%list, if is_EOF final then None else Some final).
Proof.
  revert out. induction stream as [| completion rest IH]; intros out; simpl.
  - rewrite app_nil_r. now destruct (is_EOF final).
  - rewrite choices_loop_out, IH, fragments_cons. now rewrite <- app_assoc.
Qed.

(** What an exchange does when its stream ends: the writer has received
    the fragments of the chunks (for each choice the text of its delta,
    else of its message) in arrival order and then a line feed, and the
    conversation has gained the user's turn and an assistant turn whose
    text is a line feed alone, whatever the fragments were: the builder
    that the handler filled was its own copy. *)
Lemma exchange_streams_fragments (singleShot : bool) (prompt : string) (s : Session)
    (resp : ChatCompletionResponse) :
  client (request_for modelName s prompt) = inl resp ->
  final (Reader resp) = EOF ->
  let s' := fst (exchange modelName client singleShot prompt s) in
  Out s' = (Out s ++ fragments (chunks (Reader resp)) ++ [nl])%list
  /\ messages (Conv s')
     = (messages (Conv s)
        ++ [{| Content := Some prompt; Role := ChatMessageRoleUser |};
            {| Content := Some nl; Role := ChatMessageRoleAssistant |}])%list.
Proof.
  intros Hc Hf. unfold exchange. fold (request_for modelName s prompt).
  rewrite Hc, read_loop_out, Hf. simpl. split.
  - unfold WriteToOut. now rewrite <- app_assoc.
  - now rewrite <- app_assoc.
Qed.

End SessionLoop.

(** C2, on the code: on the stream that carries "Hel" and then "lo" and
    ends, the writer receives "Hel", "lo" and a line feed, and the
    assistant turn that is stored is a line feed alone; the claim has
    the turn hold "Hello", the fragments in arrival order. *)
Lemma exchange_hello_turn_is_line_feed :
  let s := {| Conv := {| messages := []; systemPrompt := "" |};
              Params := params None None None; Out := []; Stdout := []; Requests := [] |} in
  let s' := fst (exchange "m" hello_client false "hi" s) in
  Out s' = ["Hel"; "lo"; nl]
  /\ last (messages (Conv s'))
     = Some {| Content := Some nl; Role := ChatMessageRoleAssistant |}
  /\ nl <> "Hello".
Proof. repeat split. discriminate. Qed.

(** ** The start of a session and one-shot mode *)

Section OneShot.

Context {F : Float64}.

Variable modelName : string.
Variable client : ChatCompletionOptions -> ChatCompletionResponse + error.

Local Abbreviation dispatch' := (dispatch modelName client).
Local Abbreviation loop' := (loop modelName client).
Local Abbreviation session' := (session modelName client).

(** An exchange sends exactly one request, and in one-shot mode it never
    continues the loop. *)
Lemma exchange_one_request (singleShot : bool) (prompt : string) (s : Session) :
  Requests (fst (exchange modelName client singleShot prompt s))
  = (Requests s ++ [request_for modelName s prompt])%list
  /\ Stdout (fst (exchange modelName client singleShot prompt s)) = Stdout s
  /\ (singleShot = true ->
      snd (exchange modelName client singleShot prompt s) <> Continue).
Proof.
  unfold exchange. fold (request_for modelName s prompt).
  destruct (client (request_for modelName s prompt)) as [resp | e]; simpl.
  - rewrite read_loop_out. destruct (is_EOF (final (Reader resp))); simpl.
    + repeat split. intros ->. discriminate.
    + repeat split. discriminate.
  - repeat split. discriminate.
Qed.




(** A prompt that is plain text goes to the model. *)
Lemma dispatch_plain (singleShot : bool) (prompt : string) (s : Session) :
  strings.TrimSpace prompt <> "" ->
  strings.HasPrefix (strings.TrimSpace prompt) "/" = false ->
  dispatch' singleShot prompt s
  = exchange modelName client singleShot (strings.TrimSpace prompt) s.
Proof.
  intros Hne Hp. unfold dispatch. now rewrite (eqb_neq _ _ Hne), Hp.
Qed.



(** C10. With a prompt among the arguments and a piped text that is not
    empty, the initial prompt is the arguments after the model name
    joined by single spaces, then a line feed, then the piped text; and
    each of the two sources alone already turns one-shot mode on. *)
Theorem initial_joins_both (args : list string) (promptFromPipe : string) :
  (1 < length args)%nat ->
  promptFromPipe <> "" ->
  initial args (Some promptFromPipe)
  = (strings.Join (drop 1 args) " " +:+ nl +:+ promptFromPipe, true)
  /\ (forall pipe : option string, snd (initial args pipe) = true)
  /\ (forall args' : list string, snd (initial args' (Some promptFromPipe)) = true).
Proof.
  intros Hargs Hpipe. unfold initial.
  apply Nat.ltb_lt in Hargs. rewrite Hargs.
  assert (Nat.ltb 0 (String.length promptFromPipe) = true) as Hlen.
  { destruct promptFromPipe; [contradiction | reflexivity]. }
  rewrite Hlen. split; [reflexivity | split].
  - intros [p |]; [destruct (Nat.ltb 0 (String.length p)) |]; reflexivity.
  - intros args'. now destruct (Nat.ltb 1 (length args')).
Qed.


End OneShot.

Lemma initial_joins_both_witness :
  initial ["gpt-4o"; "tell"; "me"] (Some "data") = ("tell me" +:+ nl +:+ "data", true)
  /\ (forall pipe : option string, snd (initial ["gpt-4o"; "tell"; "me"] pipe) = true)
  /\ (forall args' : list string, snd (initial args' (Some "data")) = true).
Proof.
  apply (initial_joins_both ["gpt-4o"; "tell"; "me"] "data"); [simpl; lia | discriminate].
Defined.



(** ** The commands that change the session *)

Section Commands.

Context {F : Float64}.

Variable modelName : string.
Variable client : ChatCompletionOptions -> ChatCompletionResponse + error.

(** No command changes the conversation or the parameters of the
    session: a turn of the loop on a prompt that begins with "/" leaves
    both as they were, and sends nothing. *)
Lemma dispatch_command_keeps_state (singleShot : bool) (prompt : string) (s : Session) :
  strings.HasPrefix (strings.TrimSpace prompt) "/" = true ->
  Conv (fst (dispatch modelName client singleShot prompt s)) = Conv s
  /\ Params (fst (dispatch modelName client singleShot prompt s)) = Params s
  /\ Requests (fst (dispatch modelName client singleShot prompt s)) = Requests s.
Proof.
  intros Hp. unfold dispatch. rewrite Hp.
  repeat match goal with
         | |- context [if ?b then _ else _] => destruct b
         end; repeat split.
Qed.

End Commands.

(** The handlers do change the copies they receive. *)
Lemma handlers_change_their_copy :
  let conversation :=
    {| messages := [{| Content := Some "hi"; Role := ChatMessageRoleUser |}];
       systemPrompt := "" |} in
  messages (snd (handleResetPrompt [] conversation)) = []
  /\ systemPrompt (snd (handleSystemPrompt [] "/system-prompt be brief" conversation))
     = "be brief"
  /\ snd (handleSetPrompt [] "/set max-tokens 5" (params None None None))
     = params (Some 5) None None.
Proof. repeat split. Qed.

(** C1, on the code: after a first exchange, "/reset",
    "/system-prompt be brief" and "/set max-tokens 5" are each
    acknowledged on the writer, yet the second request still carries the
    whole history, no system message and no max-tokens, and at the end
    the session holds four stored turns, an empty system prompt and no
    parameter. *)
Theorem commands_leave_session_unchanged :
  Out (fst commands_session)
  = ["Hel"; "lo"; nl;
     "Reset chat history" +:+ nl; "Updated system prompt" +:+ nl;
     "Set max-tokens to 5" +:+ nl;
     "Hel"; "lo"; nl]
  /\ Requests (fst commands_session) !! 1%nat
     = Some (request None
               [{| Content := Some "hi"; Role := ChatMessageRoleUser |};
                {| Content := Some nl; Role := ChatMessageRoleAssistant |};
                {| Content := Some "again"; Role := ChatMessageRoleUser |}]
               "m" false None None)
  /\ length (messages (Conv (fst commands_session))) = 4%nat
  /\ systemPrompt (Conv (fst commands_session)) = ""
  /\ Params (fst commands_session) = params None None None.
Proof. repeat split. Qed.

(** * Further properties of the code *)

(** ** Parameters: setting, formatting, flags *)

Section ParameterSetMore.

Context {F : Float64}.

Implicit Types (mp : ModelParameters).

Lemma eqb_eq_true (a b : string) : String.eqb a b = true -> a = b.
Proof. apply String.eqb_eq. Qed.

(** X1. Setting a parameter, whether it succeeds or fails, never changes
    how any other name is formatted. *)
Theorem SetParameterByName_format_frame mp (name value other : string) :
  other <> name ->
  FormatParameter (fst (SetParameterByName mp name value)) other = FormatParameter mp other.
Proof.
  intros Hne. unfold SetParameterByName.
  destruct (String.eqb name "max-tokens") eqn:E1.
  { apply eqb_eq_true in E1. subst name.
    destruct (strconv.Atoi value); [| reflexivity].
    unfold FormatParameter. simpl. now rewrite (eqb_neq _ _ Hne). }
  destruct (String.eqb name "temperature") eqn:E2.
  { apply eqb_eq_true in E2. subst name.
    destruct (ParseFloat value); [| reflexivity].
    unfold FormatParameter. simpl. now rewrite (eqb_neq _ _ Hne). }
  destruct (String.eqb name "top-p") eqn:E3; [| reflexivity].
  apply eqb_eq_true in E3. subst name.
  destruct (ParseFloat value); [| reflexivity].
  unfold FormatParameter. simpl. now rewrite (eqb_neq _ _ Hne).
Qed.

(** X2. A value that was set is the one that is formatted: the integer
    read for max-tokens is printed by [Itoa], the number read for
    temperature or top-p by the "%f" format. *)
Theorem SetParameterByName_then_format mp (s : string) :
  (forall n : Z, strconv.Atoi s = inl n ->
     FormatParameter (fst (SetParameterByName mp "max-tokens" s)) "max-tokens"
     = strconv.Itoa n)
  /\ (forall x : float64, ParseFloat s = inl x ->
        FormatParameter (fst (SetParameterByName mp "temperature" s)) "temperature"
        = Sprintf_f x
        /\ FormatParameter (fst (SetParameterByName mp "top-p" s)) "top-p" = Sprintf_f x).
Proof.
  split.
  - intros n Hn. unfold SetParameterByName. simpl. now rewrite Hn.
  - intros x Hx. unfold SetParameterByName. simpl. now rewrite Hx.
Qed.

(** X3. [PopulateFromFlags] does what [SetParameterByName] does for each
    flag that is not empty, in the order max-tokens, temperature, top-p,
    and stops at the first error, keeping what was set before it. *)
Theorem PopulateFromFlags_as_sets mp (maxTokensString temperatureString topPString : string) :
  PopulateFromFlags mp maxTokensString temperatureString topPString
  = match set_flag "max-tokens" maxTokensString mp with
    | (mp1, Some e) => (mp1, Some e)
    | (mp1, None) =>
        match set_flag "temperature" temperatureString mp1 with
        | (mp2, Some e) => (mp2, Some e)
        | (mp2, None) => set_flag "top-p" topPString mp2
        end
    end.
Proof.
  unfold PopulateFromFlags, set_flag, SetParameterByName. simpl.
  destruct (String.eqb maxTokensString ""); [| destruct (strconv.Atoi maxTokensString)];
    try reflexivity;
    (destruct (String.eqb temperatureString "");
     [| destruct (ParseFloat temperatureString)]; try reflexivity;
     (destruct (String.eqb topPString ""); [| destruct (ParseFloat topPString)];
      reflexivity)).
Qed.

(** X4. [PopulateFromFlags] succeeds exactly when every flag that is not
    empty can be read as a number of its kind. *)
Theorem PopulateFromFlags_succeeds_iff mp
    (maxTokensString temperatureString topPString : string) :
  snd (PopulateFromFlags mp maxTokensString temperatureString topPString) = None
  <-> (maxTokensString = "" \/ exists n, strconv.Atoi maxTokensString = inl n)
      /\ (temperatureString = "" \/ exists x, ParseFloat temperatureString = inl x)
      /\ (topPString = "" \/ exists x, ParseFloat topPString = inl x).
Proof.
  unfold PopulateFromFlags.
  destruct (String.eqb maxTokensString "") eqn:E1;
    [apply eqb_eq_true in E1 | apply String.eqb_neq in E1];
    (destruct (String.eqb temperatureString "") eqn:E2;
     [apply eqb_eq_true in E2 | apply String.eqb_neq in E2]);
    (destruct (String.eqb topPString "") eqn:E3;
     [apply eqb_eq_true in E3 | apply String.eqb_neq in E3]);
    destruct (strconv.Atoi maxTokensString) as [n | e1];
    destruct (ParseFloat temperatureString) as [x | e2];
    destruct (ParseFloat topPString) as [y | e3]; simpl;
    (split;
     [ intros H; try discriminate; repeat split; eauto
     | intros (H1 & H2 & H3); try reflexivity;
       repeat match goal with
              | H : _ \/ _ |- _ => destruct H as [H | [? H]]
              end; congruence ]).
Qed.

End ParameterSetMore.

Lemma SetParameterByName_format_frame_witness :
  FormatParameter (fst (SetParameterByName (params (Some 9) None None) "top-p" "2"))
    "max-tokens"
  = FormatParameter (params (Some 9) None None) "max-tokens".
Proof.
  apply (SetParameterByName_format_frame (params (Some 9) None None) "top-p" "2" "max-tokens").
  discriminate.
Defined.

Lemma SetParameterByName_then_format_witness :
  FormatParameter (fst (SetParameterByName (params None None None) "max-tokens" "40"))
    "max-tokens" = strconv.Itoa 40
  /\ FormatParameter (fst (SetParameterByName (params None None None) "temperature" "40"))
       "temperature" = Sprintf_f_integral 40.
Proof.
  destruct (SetParameterByName_then_format (params None None None) "40") as [Hint Hfloat].
  split.
  - apply Hint. reflexivity.
  - apply (Hfloat 40). reflexivity.
Defined.

Lemma PopulateFromFlags_succeeds_iff_witness :
  snd (PopulateFromFlags (params None None None) "40" "" "2") = None.
Proof.
  apply (PopulateFromFlags_succeeds_iff (params None None None) "40" "" "2").
  split; [right; exists 40; reflexivity | split; [left; reflexivity |]].
  right. exists 2. reflexivity.
Defined.

(** ** The conversation and the /set handler *)

Section ConversationMore.

Context {F : Float64}.

(** X5. The view of the conversation has one entry per stored message,
    plus one when there is a system prompt, and adding a message appends
    it to the view and moves nothing else. *)
Theorem GetMessages_AddMessage (c : Conversation) (role : ChatMessageRole) (content : string) :
  GetMessages (AddMessage c role content)
  = (GetMessages c ++ [{| Content := Some content; Role := role |}])%list
  /\ length (GetMessages c)
     = (length (messages c) + (if String.eqb (systemPrompt c) "" then 0 else 1))%nat.
Proof.
  rewrite !GetMessages_eq. unfold directive. simpl. split.
  - now rewrite app_assoc.
  - rewrite length_app. destruct (String.eqb (systemPrompt c) ""); simpl; lia.
Qed.

Lemma SetParameterByName_error_keeps (mp mp' : ModelParameters) (name value : string)
    (e : error) :
  SetParameterByName mp name value = (mp', Some e) -> mp' = mp.
Proof.
  unfold SetParameterByName.
  repeat match goal with
         | |- context [if ?b then _ else _] => destruct b
         | |- context [match ?x with inl _ => _ | inr _ => _ end] => destruct x
         end; congruence.
Qed.

(** X6. [handleSetPrompt] writes exactly one message, and the parameters
    it holds change only when the prompt is made of exactly three parts
    separated by single spaces and [SetParameterByName] accepted the
    second and third. *)
Theorem handleSetPrompt_effect (out : Writer) (prompt : string) (mp : ModelParameters) :
  (exists msg : string, fst (handleSetPrompt out prompt mp) = (out ++ [msg])%list)
  /\ (snd (handleSetPrompt out prompt mp) <> mp ->
      exists cmd name value : string,
        strings.Split prompt " "%char = [cmd; name; value]
        /\ SetParameterByName mp name value = (snd (handleSetPrompt out prompt mp), None)).
Proof.
  unfold handleSetPrompt, WriteToOut.
  destruct (strings.Split prompt " "%char) as [| cmd [| name [| value [| extra parts]]]];
    simpl; try (split; [eauto | intros H; now contradiction H]).
  destruct (SetParameterByName mp name value) as [mp' [e |]] eqn:Hset; simpl.
  - split; [eauto |]. intros H. contradiction H.
    now apply (SetParameterByName_error_keeps mp mp' name value e).
  - split; [eauto |]. intros _. now exists cmd, name, value.
Qed.

End ConversationMore.

Lemma handleSetPrompt_effect_witness :
  exists cmd name value : string,
    strings.Split "/set max-tokens 5" " "%char = [cmd; name; value]
    /\ SetParameterByName (params None None None) name value
       = (snd (handleSetPrompt [] "/set max-tokens 5" (params None None None)), None).
Proof.
  apply (handleSetPrompt_effect [] "/set max-tokens 5" (params None None None)).
  discriminate.
Defined.

(** ** The start of a session *)

(** X7. The session is interactive, with no initial prompt, exactly when
    there is no argument after the model name and nothing was piped in. *)
Theorem initial_interactive_iff (args : list string) (pipe : option string) :
  initial args pipe = ("", false)
  <-> (length args <= 1)%nat /\ (pipe = None \/ pipe = Some "").
Proof.
  unfold initial. destruct (Nat.ltb 1 (length args)) eqn:Hargs.
  - apply Nat.ltb_lt in Hargs. split.
    + destruct pipe as [p |]; [destruct (Nat.ltb 0 (String.length p)) |]; discriminate.
    + intros [Hle _]. lia.
  - apply Nat.ltb_ge in Hargs. destruct pipe as [[| b p] |]; simpl.
    + split; [intros _; split; [lia | now right] | reflexivity].
    + split; [discriminate | intros [_ [H | H]]; discriminate].
    + split; [intros _; split; [lia | now left] | reflexivity].
Qed.

Lemma initial_interactive_iff_witness : initial ["gpt-4o"] (Some "") = ("", false).
Proof.
  apply (initial_interactive_iff ["gpt-4o"] (Some "")).
  split; [simpl; lia | now right].
Defined.

(** ** The loop: commands, exit, errors *)

Section LoopMore.

Context {F : Float64}.

Variable modelName : string.
Variable client : ChatCompletionOptions -> ChatCompletionResponse + error.

Local Abbreviation dispatch' := (dispatch modelName client).
Local Abbreviation loop' := (loop modelName client).

Lemma wrote_one (out : Writer) (msg : string) : wrote out (WriteToOut out msg).
Proof. exists [msg]. now split. Qed.

Lemma wrote_more (out out' : Writer) (msg : string) :
  wrote out out' -> wrote out (WriteToOut out' msg).
Proof.
  intros (msgs & Hne & ->). exists (msgs ++ [msg])%list. split.
  - now destruct msgs.
  - unfold WriteToOut. now rewrite app_assoc.
Qed.

Lemma handleParametersPrompt_wrote (out : Writer) (c : Conversation) (mp : ModelParameters) :
  wrote out (handleParametersPrompt out c mp).
Proof.
  unfold handleParametersPrompt. simpl.
  destruct (String.eqb (systemPrompt c) "");
    repeat first [apply wrote_one | apply wrote_more].
Qed.

Lemma handleSetPrompt_wrote (out : Writer) (prompt : string) (mp : ModelParameters) :
  wrote out (fst (handleSetPrompt out prompt mp)).
Proof.
  destruct (handleSetPrompt_effect out prompt mp) as [[msg ->] _]. apply wrote_one.
Qed.

Lemma handleHelpPrompt_wrote (out : Writer) : wrote out (handleHelpPrompt out).
Proof. unfold handleHelpPrompt. repeat first [apply wrote_one | apply wrote_more]. Qed.

(** An exit line leaves the loop and changes nothing. *)
Lemma dispatch_exit (singleShot : bool) (prompt : string) (s : Session) :
  is_exit prompt = true -> dispatch' singleShot prompt s = (s, Break).
Proof.
  unfold is_exit, dispatch. intros H.
  apply orb_prop in H as [H | H]; [apply orb_prop in H as [H | H] |];
    apply eqb_eq_true in H; rewrite H; reflexivity.
Qed.

(** X8. A prompt that begins with "/" never reaches the model and never
    ends the session with an error: the three exit commands leave the
    loop with the state untouched, and every other command, known or
    not, writes at least one message and lets the loop go on. *)
Theorem dispatch_command_control (singleShot : bool) (prompt : string) (s : Session) :
  strings.HasPrefix (strings.TrimSpace prompt) "/" = true ->
  Requests (fst (dispatch' singleShot prompt s)) = Requests s
  /\ (is_exit prompt = true -> dispatch' singleShot prompt s = (s, Break))
  /\ (is_exit prompt = false ->
      snd (dispatch' singleShot prompt s) = Continue
      /\ wrote (Out s) (Out (fst (dispatch' singleShot prompt s)))).
Proof.
  intros Hp. split; [| split].
  - now apply dispatch_command_keeps_state.
  - apply dispatch_exit.
  - unfold is_exit, dispatch. rewrite Hp. intros ->.
    destruct (String.eqb (strings.TrimSpace prompt) "") eqn:E.
    { apply eqb_eq_true in E. rewrite E in Hp. discriminate. }
    repeat match goal with
           | |- context [if ?b then _ else _] => destruct b
           end; simpl; (split; [reflexivity |]).
    + apply handleParametersPrompt_wrote.
    + apply wrote_one.
    + apply handleSetPrompt_wrote.
    + apply wrote_one.
    + apply handleHelpPrompt_wrote.
    + apply wrote_one.
Qed.

(** X9. Nothing that follows an exit line on standard input is read. *)
Theorem loop_stops_at_exit (singleShot : bool) (before : list string) (exit : string)
    (after : list string) (s : Session) :
  is_exit exit = true ->
  loop' singleShot (before ++ exit :: after)%list s
  = loop' singleShot (before ++ [exit])%list s.
Proof.
  intros Hexit. revert s. induction before as [| prompt before IH]; intros s.
  - cbn [app loop]. now rewrite (dispatch_exit singleShot exit _ Hexit).
  - cbn [app loop].
    destruct (dispatch' singleShot prompt (Printf s ">>> ")) as [s' [| |]];
      [apply IH | reflexivity | reflexivity].
Qed.

(** In a session that is not one-shot an exchange never leaves the loop
    by [break]. *)
Lemma exchange_interactive (prompt : string) (s : Session) :
  snd (exchange modelName client false prompt s) <> Break.
Proof.
  unfold exchange.
  destruct (client _) as [resp | e]; [| discriminate].
  destruct (read_loop _ _ _ _) as [out [e |]]; discriminate.
Qed.

Lemma dispatch_interactive_break (prompt : string) (s : Session) :
  snd (dispatch' false prompt s) = Break -> is_exit prompt = true.
Proof.
  unfold is_exit, dispatch.
  destruct (String.eqb (strings.TrimSpace prompt) ""); [discriminate |].
  destruct (strings.HasPrefix (strings.TrimSpace prompt) "/").
  - destruct (String.eqb (strings.TrimSpace prompt) "/bye"
              || String.eqb (strings.TrimSpace prompt) "/exit"
              || String.eqb (strings.TrimSpace prompt) "/quit"); [reflexivity |].
    repeat match goal with
           | |- context [if ?b then _ else _] => destruct b
           end; discriminate.
  - intros H. now apply exchange_interactive in H.
Qed.

(** X10. A session that is not one-shot ends without an error only if
    one of the lines it was given is an exit command. *)
Theorem loop_interactive_ends_by_exit (stdin : list string) (s : Session) :
  snd (loop' false stdin s) = None ->
  Exists (fun prompt => is_exit prompt = true) stdin.
Proof.
  revert s. induction stdin as [| prompt stdin IH]; intros s; cbn [loop].
  - discriminate.
  - pose proof (dispatch_interactive_break prompt (Printf s ">>> ")) as Hb.
    destruct (dispatch' false prompt (Printf s ">>> ")) as [s' [| |]]; simpl in *.
    + intros H. apply Exists_cons_tl. now apply (IH s').
    + intros _. apply Exists_cons_hd. now apply Hb.
    + discriminate.
Qed.

End LoopMore.

Lemma dispatch_command_control_witness :
  snd (dispatch "m" hello_client false (line "/frobnicate") fresh) = Continue
  /\ wrote (Out fresh) (Out (fst (dispatch "m" hello_client false (line "/frobnicate") fresh))).
Proof.
  apply (dispatch_command_control "m" hello_client false (line "/frobnicate") fresh);
    reflexivity.
Defined.

Lemma loop_stops_at_exit_witness :
  loop "m" hello_client false [line "hi"; line "/quit"; line "more"; line "/reset"] fresh
  = loop "m" hello_client false [line "hi"; line "/quit"] fresh.
Proof.
  apply (loop_stops_at_exit "m" hello_client false [line "hi"] (line "/quit")
           [line "more"; line "/reset"] fresh).
  reflexivity.
Defined.

Lemma loop_interactive_ends_by_exit_witness :
  Exists (fun prompt => is_exit prompt = true) [line "hi"; line " /bye "; line "more"].
Proof.
  apply (loop_interactive_ends_by_exit "m" hello_client
           [line "hi"; line " /bye "; line "more"] fresh).
  reflexivity.
Defined.

(** ** What the session sends, and how it fails *)

Section Exchanges.

Context {F : Float64}.

Variable modelName : string.
Variable client : ChatCompletionOptions -> ChatCompletionResponse + error.

Lemma request_for_sendable (s : Session) (prompt : string) :
  prompt <> "" -> strings.HasPrefix prompt "/" = false ->
  sendable modelName (request_for modelName s prompt).
Proof.
  intros Hne Hp. unfold sendable, request_for. simpl.
  split; [reflexivity | split; [reflexivity |]].
  exists prompt. split; [| now split].
  rewrite GetMessages_eq. simpl. rewrite app_assoc. apply last_snoc.
Qed.

Lemma dispatch_sendable (singleShot : bool) (prompt : string) (s : Session) :
  Forall (sendable modelName) (Requests s) ->
  Forall (sendable modelName) (Requests (fst (dispatch modelName client singleShot prompt s))).
Proof.
  intros Hs.
  destruct (String.eqb (strings.TrimSpace prompt) "") eqn:Hblank.
  { unfold dispatch. now rewrite Hblank. }
  destruct (strings.HasPrefix (strings.TrimSpace prompt) "/") eqn:Hp.
  - destruct (dispatch_command_keeps_state modelName client singleShot prompt s Hp)
      as (_ & _ & ->). exact Hs.
  - apply String.eqb_neq in Hblank.
    rewrite (dispatch_plain modelName client singleShot prompt s Hblank Hp).
    destruct (exchange_one_request modelName client singleShot (strings.TrimSpace prompt) s)
      as (-> & _).
    apply Forall_app. split; [exact Hs |].
    apply Forall_cons. split; [| apply Forall_nil_2].
    now apply request_for_sendable.
Qed.

Lemma loop_sendable (singleShot : bool) (stdin : list string) (s : Session) :
  Forall (sendable modelName) (Requests s) ->
  Forall (sendable modelName) (Requests (fst (loop modelName client singleShot stdin s))).
Proof.
  revert s. induction stdin as [| prompt stdin IH]; intros s Hs; cbn [loop].
  - exact Hs.
  - pose proof (dispatch_sendable singleShot prompt (Printf s ">>> ") Hs) as Hd.
    destruct (dispatch modelName client singleShot prompt (Printf s ">>> ")) as [s' [| |]];
      simpl in *; [now apply IH | exact Hd | exact Hd].
Qed.

Lemma session_sendable (singleShot : bool) (initialPrompt : string) (stdin : list string)
    (s : Session) :
  Forall (sendable modelName) (Requests s) ->
  Forall (sendable modelName)
    (Requests (fst (session modelName client singleShot initialPrompt stdin s))).
Proof.
  intros Hs. unfold session.
  destruct (String.eqb initialPrompt ""); [now apply loop_sendable |].
  pose proof (dispatch_sendable singleShot initialPrompt s Hs) as Hd.
  destruct (dispatch modelName client singleShot initialPrompt s) as [s' [| |]];
    simpl in *; [now apply loop_sendable | exact Hd | exact Hd].
Qed.

(** X11. Every request that a run sends names the chosen model, is not
    yet marked as a stream, and ends with a user turn whose text is
    neither empty nor a command: blank lines and commands never reach
    the model. *)
Theorem RunE_requests_sendable (args : list string) (pipe : option string)
    (systemPromptFlag maxTokensFlag temperatureFlag topPFlag : string)
    (stdin : list string) :
  Forall (sendable modelName)
    (Requests (fst (RunE modelName client args pipe systemPromptFlag maxTokensFlag
                      temperatureFlag topPFlag stdin))).
Proof.
  unfold RunE. destruct (initial args pipe) as [initialPrompt singleShot].
  destruct (PopulateFromFlags _ _ _ _) as [mp [e |]]; [apply Forall_nil_2 |].
  apply session_sendable. apply Forall_nil_2.
Qed.

(** X12. When the call to the model fails, the session ends with that
    error at once: the lines that follow are not read (the loop ends as
    it does without them, having sent that one request and printed one
    prompt), nothing is written, the user's turn stays in the
    conversation and no assistant turn is added. *)
Theorem loop_call_error (singleShot : bool) (prompt : string) (rest : list string)
    (s : Session) (e : error) :
  strings.TrimSpace prompt <> "" ->
  strings.HasPrefix (strings.TrimSpace prompt) "/" = false ->
  client (request_for modelName s (strings.TrimSpace prompt)) = inr e ->
  let r := loop modelName client singleShot (prompt :: rest) s in
  snd r = Some e
  /\ Out (fst r) = Out s
  /\ Conv (fst r) = AddMessage (Conv s) ChatMessageRoleUser (strings.TrimSpace prompt)
  /\ r = loop modelName client singleShot [prompt] s
  /\ Requests (fst r)
     = (Requests s ++ [request_for modelName s (strings.TrimSpace prompt)])%list
  /\ Stdout (fst r) = (Stdout s ++ [">>> "])%list.
Proof.
  intros Hne Hp Hc. cbn [loop].
  rewrite (dispatch_plain modelName client singleShot prompt _ Hne Hp).
  unfold exchange.
  change (UpdateRequest _ _) with (request_for modelName s (strings.TrimSpace prompt)).
  rewrite Hc. now repeat split.
Qed.

(** X13. When the stream breaks, the session ends with the error of the
    stream: the fragments that arrived before it are on the writer, and
    the conversation holds the user's turn and no assistant turn. *)
Theorem loop_stream_error (singleShot : bool) (prompt : string) (rest : list string)
    (s : Session) (resp : ChatCompletionResponse) :
  strings.TrimSpace prompt <> "" ->
  strings.HasPrefix (strings.TrimSpace prompt) "/" = false ->
  client (request_for modelName s (strings.TrimSpace prompt)) = inl resp ->
  is_EOF (final (Reader resp)) = false ->
  let r := loop modelName client singleShot (prompt :: rest) s in
  snd r = Some (final (Reader resp))
  /\ Out (fst r) = (Out s ++ fragments (chunks (Reader resp)))%list
  /\ Conv (fst r) = AddMessage (Conv s) ChatMessageRoleUser (strings.TrimSpace prompt).
Proof.
  intros Hne Hp Hc Hf. cbn [loop].
  rewrite (dispatch_plain modelName client singleShot prompt _ Hne Hp).
  unfold exchange.
  change (UpdateRequest _ _) with (request_for modelName s (strings.TrimSpace prompt)).
  rewrite Hc, read_loop_out, Hf. now repeat split.
Qed.

End Exchanges.

Lemma loop_call_error_witness :
  let r := loop "m" refusing_client false [line "hi"; line "again"] fresh in
  snd r = Some (transportError "connection refused")
  /\ Out (fst r) = []
  /\ Conv (fst r) = AddMessage (Conv fresh) ChatMessageRoleUser "hi"
  /\ r = loop "m" refusing_client false [line "hi"] fresh
  /\ Requests (fst r) = [request_for "m" fresh "hi"]
  /\ Stdout (fst r) = [">>> "].
Proof.
  apply (loop_call_error "m" refusing_client false (line "hi") [line "again"] fresh
           (transportError "connection refused")); [discriminate | reflexivity ..].
Defined.

Lemma loop_stream_error_witness :
  let r := loop "m" breaking_client false [line "hi"; line "again"] fresh in
  snd r = Some (transportError "unexpected end of stream")
  /\ Out (fst r) = ["Hel"]
  /\ Conv (fst r) = AddMessage (Conv fresh) ChatMessageRoleUser "hi".
Proof.
  apply (loop_stream_error "m" breaking_client false (line "hi") [line "again"] fresh
           {| Reader := {| chunks := [delta_chunk "Hel"];
                           final := transportError "unexpected end of stream" |} |});
    [discriminate | reflexivity ..].
Defined.

(** ** The completion client: what it sends and what it returns *)

Section StreamClientMore.

Import azure_models.

Context {F : Float64}.

Variable Marshal : ChatCompletionOptions -> string + error.
Variable Do : Request -> Response + error.
Variable NewEventReader : string -> EventReader.

Local Abbreviation stream := (GetChatCompletionStream Marshal Do NewEventReader).

(** X14. A call returns either a stream and no error, or an error and no
    stream, never both and never neither; and a response whose body was
    closed is never handed out as a stream. *)
Theorem GetChatCompletionStream_stream_xor_error (c : Client) (req : ChatCompletionOptions) :
  ((exists resp, result (stream c req) = Some resp) /\ err (stream c req) = None
   \/ result (stream c req) = None /\ exists e, err (stream c req) = Some e)
  /\ (bodyClosed (stream c req) = true -> result (stream c req) = None).
Proof.
  unfold GetChatCompletionStream.
  destruct (Marshal (with_Stream req true)) as [bodyBytes | e]; simpl.
  2: { split; [right; eauto | reflexivity]. }
  destruct (Do _) as [resp | e]; simpl.
  2: { split; [right; eauto | reflexivity]. }
  destruct (negb (StatusCode resp =? StatusOK)); simpl.
  - split; [right; eauto | reflexivity].
  - split; [left; eauto | discriminate].
Qed.

(** X15. On status 200 the client returns the event reader over the
    body of the response, no error, and leaves the body open for the
    reader. *)
Theorem GetChatCompletionStream_success (c : Client) (req : ChatCompletionOptions)
    (h : Request) (resp : Response) :
  sent (stream c req) = Some h ->
  Do h = inl resp ->
  StatusCode resp = StatusOK ->
  result (stream c req) = Some {| Reader := NewEventReader (Body resp) |}
  /\ err (stream c req) = None
  /\ bodyClosed (stream c req) = false.
Proof.
  unfold GetChatCompletionStream.
  destruct (Marshal (with_Stream req true)) as [bodyBytes | e]; simpl; [| discriminate].
  destruct (Do _) as [resp0 | e] eqn:HD; simpl.
  - destruct (negb (StatusCode resp0 =? StatusOK)) eqn:Hs; simpl;
      intros [= <-] Hdo Hok; rewrite HD in Hdo; injection Hdo as <-.
    + rewrite Hok in Hs. discriminate.
    + now repeat split.
  - intros [= <-] Hdo. rewrite HD in Hdo. discriminate.
Qed.

(** X16. The client sends nothing exactly when the request cannot be
    encoded, and then returns the encoder's error; what it sends is a
    POST to the inference URL that carries the bearer token and the JSON
    content type. *)
Theorem GetChatCompletionStream_sent (c : Client) (req : ChatCompletionOptions) :
  (sent (stream c req) = None
   <-> exists e, Marshal (with_Stream req true) = inr e)
  /\ (forall e, Marshal (with_Stream req true) = inr e -> err (stream c req) = Some e)
  /\ (forall h, sent (stream c req) = Some h ->
        Method h = "POST"
        /\ URL h = prodInferenceURL
        /\ Authorization h = "Bearer " +:+ token c
        /\ ContentType h = "application/json").
Proof.
  unfold GetChatCompletionStream.
  destruct (Marshal (with_Stream req true)) as [bodyBytes | e]; simpl.
  - destruct (Do _) as [resp | e]; [destruct (negb (StatusCode resp =? StatusOK)) |]; simpl;
      (split; [split; [discriminate | intros [e' He']; discriminate] |];
       split; [intros e' He'; discriminate | intros h [= <-]; now repeat split]).
  - split; [split; eauto |].
    split; [intros e' [= <-]; reflexivity | discriminate].
Qed.

End StreamClientMore.

Lemma GetChatCompletionStream_success_witness :
  let Do := fun _ : azure_models.Request =>
    inl {| azure_models.StatusCode := 200; azure_models.Status := "200 OK";
           azure_models.Body := "data" |} : azure_models.Response + error in
  let o := azure_models.GetChatCompletionStream flag_Marshal Do (fun _ => hello_stream)
             {| azure_models.token := "t" |} (request None [] "m" false None None) in
  azure_models.result o = Some {| Reader := hello_stream |}
  /\ azure_models.err o = None
  /\ azure_models.bodyClosed o = false.
Proof.
  intros Do o.
  refine (GetChatCompletionStream_success flag_Marshal Do (fun _ => hello_stream)
            {| azure_models.token := "t" |} (request None [] "m" false None None)
            _ {| azure_models.StatusCode := 200; azure_models.Status := "200 OK";
                 azure_models.Body := "data" |} eq_refl eq_refl eq_refl).
Defined.

Lemma GetChatCompletionStream_sent_witness :
  let o := azure_models.GetChatCompletionStream flag_Marshal denying_Do no_events
             {| azure_models.token := "t" |} (request None [] "m" false None None) in
  option_map azure_models.Authorization (azure_models.sent o) = Some "Bearer t".
Proof.
  intros o.
  destruct (GetChatCompletionStream_sent flag_Marshal denying_Do no_events
              {| azure_models.token := "t" |} (request None [] "m" false None None))
    as (_ & _ & Hsent).
  destruct (Hsent _ eq_refl) as (_ & _ & Hauth & _).
  exact (f_equal Some Hauth).
Defined.

Lemma GetChatCompletionStream_stream_xor_error_witness :
  let o := azure_models.GetChatCompletionStream flag_Marshal denying_Do no_events
             {| azure_models.token := "t" |} (request None [] "m" false None None) in
  azure_models.result o = None.
Proof.
  intros o.
  apply (GetChatCompletionStream_stream_xor_error flag_Marshal denying_Do no_events
           {| azure_models.token := "t" |} (request None [] "m" false None None)).
  reflexivity.
Defined.

(** ** The choice of a model *)

Section ModelNameMore.

Import azuremodels.

Variable HasName : ModelSummary -> string -> bool.
Variable IsChatModel : ModelSummary -> bool.
Variable AskOne : list string -> string + error.

Lemma find_match_find (models : list ModelSummary) (modelName : string) :
  find_match HasName models modelName
  = match List.find (fun model => HasName model modelName) models with
    | Some model => (Name model, true)
    | None => (modelName, false)
    end.
Proof.
  induction models as [| model rest IH]; simpl; [reflexivity |].
  now destruct (HasName model modelName).
Qed.

(** X17. [validateModelName] answers with the catalogue name of the
    first listed model that has the given name, and with an error when
    the name is empty or no listed model has it; so a name it returns is
    always the name of a listed model. *)
Theorem validateModelName_first_match (modelName : string) (models : list ModelSummary) :
  validateModelName HasName modelName models
  = (if String.eqb modelName "" then inr (errorString noMatchErrorMessage)
     else match List.find (fun model => HasName model modelName) models with
          | Some model => inl (Name model)
          | None => inr (errorString noMatchErrorMessage)
          end)
  /\ (forall name : string,
        validateModelName HasName modelName models = inl name ->
        exists model, In model models /\ HasName model modelName = true /\ Name model = name).
Proof.
  assert (validateModelName HasName modelName models
          = (if String.eqb modelName "" then inr (errorString noMatchErrorMessage)
             else match List.find (fun model => HasName model modelName) models with
                  | Some model => inl (Name model)
                  | None => inr (errorString noMatchErrorMessage)
                  end)) as Heq.
  { unfold validateModelName. rewrite find_match_find.
    destruct (String.eqb modelName ""); [reflexivity |].
    now destruct (List.find _ models). }
  split; [exact Heq |].
  intros name. rewrite Heq.
  destruct (String.eqb modelName ""); [discriminate |].
  destruct (List.find _ models) as [model |] eqn:Hfind; [| discriminate].
  intros [= <-]. apply List.find_some in Hfind as [Hin Hhas]. eauto.
Qed.

Lemma chat_options_acc (options : list string) (models : list ModelSummary) :
  chat_options IsChatModel options models
  = (options ++ map FriendlyName (List.filter IsChatModel models))%list.
Proof.
  revert options. induction models as [| model rest IH]; intros options; simpl.
  - now rewrite app_nil_r.
  - destruct (IsChatModel model); simpl; rewrite IH; [| reflexivity].
    now rewrite <- app_assoc.
Qed.

(** X18. Without arguments the user is offered the display names of the
    chat models, in the order of the list, and the answer is validated
    like a model name given as an argument; with arguments the first one
    is the model name and the user is not asked. *)
Theorem getModelNameFromArgs_cases (args : list string) (models : list ModelSummary) :
  getModelNameFromArgs HasName IsChatModel AskOne args models
  = match args with
    | [] =>
        match AskOne (map FriendlyName (List.filter IsChatModel models)) with
        | inr e => inr e
        | inl modelName => validateModelName HasName modelName models
        end
    | modelName :: _ => validateModelName HasName modelName models
    end.
Proof.
  destruct args; [| reflexivity].
  unfold getModelNameFromArgs. now rewrite chat_options_acc.
Qed.

End ModelNameMore.

Lemma validateModelName_first_match_witness :
  exists model,
    In model [embedder; gpt] /\ by_either_name model "OpenAI GPT-4o" = true
    /\ azuremodels.Name model = "gpt-4o".
Proof.
  apply (validateModelName_first_match by_either_name "OpenAI GPT-4o" [embedder; gpt]).
  reflexivity.
Defined.

(** ** The run command as a whole *)

Section CommandMore.

Context {F : Float64}.

Variable client : ChatCompletionOptions -> ChatCompletionResponse + error.
Variable HasName : azuremodels.ModelSummary -> string -> bool.
Variable IsChatModel : azuremodels.ModelSummary -> bool.
Variable AskOne : list string -> string + error.
Variable SortModels : list azuremodels.ModelSummary -> list azuremodels.ModelSummary.




End CommandMore.

(** ** The catalogue *)

Section CatalogueMore.

Import azuremodels.

Variable Do : azure_models.Request -> azure_models.Response + error.
Variable Decode : string -> list modelCatalogSummary + error.

Lemma convert_map (acc : list ModelSummary) (summaries : list modelCatalogSummary) :
  convert acc summaries = (acc ++ map to_ModelSummary summaries)%list.
Proof.
  revert acc. induction summaries as [| summary rest IH]; intros acc; simpl.
  - now rewrite app_nil_r.
  - rewrite IH, <- app_assoc. reflexivity.
Qed.

(** X20. [ListModels] always sends the fixed catalogue query, and what
    it returns follows the answer: a transport failure gives that error,
    a status other than 200 the error of [handleHTTPError], a body that
    cannot be decoded the decoder's error, each with no model; and a 200
    answer whose body decodes gives no error and one model for each
    entry of the catalogue, in the catalogue's order, whose task is the
    entry's first inference task, or empty when it has none.  So models
    are returned only without an error. *)
Theorem ListModels_result (c : azure_models.Client) :
  listing_sent (ListModels Do Decode c) = Some catalogue_request
  /\ (forall e, Do catalogue_request = inr e ->
        listing_err (ListModels Do Decode c) = Some e
        /\ models (ListModels Do Decode c) = [])
  /\ (forall resp, Do catalogue_request = inl resp ->
        azure_models.StatusCode resp <> azure_models.StatusOK ->
        listing_err (ListModels Do Decode c) = Some (azure_models.handleHTTPError c resp)
        /\ models (ListModels Do Decode c) = [])
  /\ (forall resp e, Do catalogue_request = inl resp ->
        azure_models.StatusCode resp = azure_models.StatusOK ->
        Decode (azure_models.Body resp) = inr e ->
        listing_err (ListModels Do Decode c) = Some e
        /\ models (ListModels Do Decode c) = [])
  /\ (forall resp summaries, Do catalogue_request = inl resp ->
        azure_models.StatusCode resp = azure_models.StatusOK ->
        Decode (azure_models.Body resp) = inl summaries ->
        listing_err (ListModels Do Decode c) = None
        /\ models (ListModels Do Decode c) = map to_ModelSummary summaries)
  /\ (listing_err (ListModels Do Decode c) <> None -> models (ListModels Do Decode c) = []).
Proof.
  unfold ListModels. fold catalogue_request.
  destruct (Do catalogue_request) as [resp | e] eqn:HD.
  2: { cbn. repeat split; try discriminate; intros; congruence. }
  destruct (negb (azure_models.StatusCode resp =? azure_models.StatusOK)) eqn:Hs.
  { apply negb_true_iff, Z.eqb_neq in Hs. cbn.
    repeat split; try discriminate; intros; congruence. }
  apply negb_false_iff, Z.eqb_eq in Hs.
  destruct (Decode (azure_models.Body resp)) as [summaries | e] eqn:Hdec; cbn.
  - split; [reflexivity |]. split; [discriminate |].
    split; [intros resp' [= <-] Hne; contradiction |].
    split; [intros resp' e [= <-] _ He; congruence |].
    split.
    + intros resp' summaries' [= <-] _ Hd. rewrite Hdec in Hd. injection Hd as <-.
      split; [reflexivity | apply (convert_map [] summaries)].
    + intros H. now contradiction H.
  - split; [reflexivity |]. split; [discriminate |].
    split; [intros resp' [= <-] Hne; contradiction |].
    split; [intros resp' e' [= <-] _ He; rewrite Hdec in He; injection He as <-; now split |].
    split; [intros resp' summaries [= <-] _ Hd; congruence | reflexivity].
Qed.

End CatalogueMore.

(** ** The printer of the view command *)

Section PrinterMore.

Import view.

Variable markdown_Render : string -> Z -> string + error.
Variable ContextLimits : ModelDetails -> string.
Variable Render_result : TablePrinter -> option error.

Local Abbreviation row := (view_row markdown_Render).

Lemma printLabelledLine_row (p : modelPrinter) (label value : string) :
  printLabelledLine p label value
  = with_printer p (printer p ++ row (terminalWidth p) (false, label, value))%list.
Proof.
  destruct p as [ms md calls w]. unfold printLabelledLine, view_row, addLabel, with_printer.
  simpl. destruct (String.eqb value ""); simpl.
  - now rewrite app_nil_r.
  - now rewrite <- !app_assoc.
Qed.

Lemma printMultipleLinesWithLabel_row (p : modelPrinter) (label value : string) :
  printMultipleLinesWithLabel markdown_Render p label value
  = with_printer p (printer p ++ row (terminalWidth p) (true, label, value))%list.
Proof.
  destruct p as [ms md calls w].
  unfold printMultipleLinesWithLabel, view_row, addLabel, with_printer.
  simpl. destruct (String.eqb value ""); simpl.
  - now rewrite app_nil_r.
  - now rewrite <- !app_assoc.
Qed.

Local Abbreviation print_entry :=
  (fun (p : modelPrinter) (entry : bool * string * string) =>
     let '(multi, label, value) := entry in
     if multi then printMultipleLinesWithLabel markdown_Render p label value
     else printLabelledLine p label value).

Lemma print_entry_row (p : modelPrinter) (entry : bool * string * string) :
  print_entry p entry
  = with_printer p (printer p ++ row (terminalWidth p) entry)%list.
Proof.
  destruct entry as [[[|] label] value];
    [apply printMultipleLinesWithLabel_row | apply printLabelledLine_row].
Qed.

Lemma fold_print_entry_rows (entries : list (bool * string * string)) (p : modelPrinter) :
  fold_left print_entry entries p
  = with_printer p (printer p ++ flat_map (row (terminalWidth p)) entries)%list.
Proof.
  revert p. induction entries as [| entry rest IH]; intros p.
  - destruct p. unfold with_printer. simpl. now rewrite app_nil_r.
  - cbn [fold_left flat_map]. rewrite IH, print_entry_row.
    destruct p. unfold with_printer. simpl. now rewrite <- app_assoc.
Qed.

(** X21. [render] goes through the labelled values in a fixed order,
    the four of the summary and then the eleven of the details, each
    group only when it is present; a value that is empty (an empty list
    included) adds nothing, any other adds one row made of the label and
    the value, and the printer's [Render] is called once, last, and its
    error is the one returned. *)
Theorem render_rows (p : modelPrinter) :
  printer (fst (render markdown_Render ContextLimits Render_result p))
  = (printer p ++ flat_map (row (terminalWidth p)) (view_entries ContextLimits p) ++ [Render])%list
  /\ snd (render markdown_Render ContextLimits Render_result p)
     = Render_result
         (printer p ++ flat_map (row (terminalWidth p)) (view_entries ContextLimits p))%list.
Proof.
  assert (forall (q : modelPrinter) (m : azuremodels.ModelSummary),
            (let q := printLabelledLine q "Display name:" (azuremodels.FriendlyName m) in
             let q := printLabelledLine q "Model name:" (azuremodels.Name m) in
             let q := printLabelledLine q "Publisher:" (azuremodels.Publisher m) in
             printLabelledLine q "Summary:" (azuremodels.Summary m))
            = fold_left print_entry
                [(false, "Display name:", azuremodels.FriendlyName m);
                 (false, "Model name:", azuremodels.Name m);
                 (false, "Publisher:", azuremodels.Publisher m);
                 (false, "Summary:", azuremodels.Summary m)] q) as Hsummary
    by reflexivity.
  assert (forall (q : modelPrinter) (d : ModelDetails),
            (let q := printLabelledLine q "Context:" (ContextLimits d) in
             let q := printLabelledLine q "Rate limit tier:" (RateLimitTier d) in
             let q := printLabelledList q "Tags:" (Tags d) in
             let q := printLabelledList q "Supported input types:"
                        (SupportedInputModalities d) in
             let q := printLabelledList q "Supported output types:"
                        (SupportedOutputModalities d) in
             let q := printLabelledMultiLineList markdown_Render q "Supported languages:"
                        (SupportedLanguages d) in
             let q := printLabelledLine q "License:" (License d) in
             let q := printMultipleLinesWithLabel markdown_Render q "License description:"
                        (LicenseDescription d) in
             let q := printMultipleLinesWithLabel markdown_Render q "Description:"
                        (Description d) in
             let q := printMultipleLinesWithLabel markdown_Render q "Notes:" (Notes d) in
             printMultipleLinesWithLabel markdown_Render q "Evaluation:" (Evaluation d))
            = fold_left print_entry
                [(false, "Context:", ContextLimits d);
                 (false, "Rate limit tier:", RateLimitTier d);
                 (false, "Tags:", strings.Join (Tags d) ", ");
                 (false, "Supported input types:",
                  strings.Join (SupportedInputModalities d) ", ");
                 (false, "Supported output types:",
                  strings.Join (SupportedOutputModalities d) ", ");
                 (true, "Supported languages:", strings.Join (SupportedLanguages d) ", ");
                 (false, "License:", License d);
                 (true, "License description:", LicenseDescription d);
                 (true, "Description:", Description d);
                 (true, "Notes:", Notes d);
                 (true, "Evaluation:", Evaluation d)] q) as Hdetails
    by reflexivity.
  destruct p as [ms md calls w].
  unfold render, view_entries. cbn [modelSummary modelDetails].
  destruct ms as [m |], md as [d |];
    rewrite ?Hsummary, ?fold_print_entry_rows;
    cbn [with_printer printer terminalWidth modelSummary modelDetails];
    rewrite ?Hdetails, ?fold_print_entry_rows;
    cbn [with_printer printer terminalWidth modelSummary modelDetails fst snd];
    rewrite ?flat_map_app, ?app_nil_r, <- ?app_assoc; split; reflexivity.
Qed.

End PrinterMore.

Lemma ListModels_result_witness :
  azuremodels.listing_err
    (azuremodels.ListModels catalogue_Do catalogue_Decode {| azure_models.token := "t" |})
  = None
  /\ azuremodels.models
       (azuremodels.ListModels catalogue_Do catalogue_Decode {| azure_models.token := "t" |})
     = [{| azuremodels.ID := "8"; azuremodels.Name := "gpt-4o";
           azuremodels.FriendlyName := "OpenAI GPT-4o"; azuremodels.Task := "chat-completion";
           azuremodels.Publisher := "OpenAI"; azuremodels.Summary := "large" |};
        {| azuremodels.ID := "7"; azuremodels.Name := "phi";
           azuremodels.FriendlyName := "Phi"; azuremodels.Task := "";
           azuremodels.Publisher := "Microsoft"; azuremodels.Summary := "small" |}].
Proof.
  destruct (ListModels_result catalogue_Do catalogue_Decode {| azure_models.token := "t" |})
    as (_ & _ & _ & _ & Hgood & _).
  exact (Hgood catalogue_answer [tasked; untasked] eq_refl eq_refl eq_refl).
Defined.
